(** * google-drive-bulk-downloader: a shallow embedding of [main.py]

    The development follows the source file top-down:

    - [PyStr]: the Python string operations the script relies on
      ([in], [str.split], the reading of a text file);
    - [PyPath]: the part of [pathlib] (POSIX flavour) the script uses;
    - [LocalFS]: the local file system as seen through [exists], [mkdir],
      [open(..., 'r')] and [open(..., 'wb')];
    - [Remote]: the Google Drive service as seen through PyDrive;
    - the four functions of the script: [extract_folder_ids],
      [count_files], [download_google_drive_folder] and
      [google_drive_bulk_download].

    Exceptions are explicit: an operation that may raise returns an
    [option], a function out of which an exception may escape returns an
    [outcome].  The two recursive functions of the script walk a remote
    hierarchy of unknown depth, so their embeddings take a [fuel]
    argument and return [None] when it runs out; the theorems about them
    show that a depth bound on the remote hierarchy is enough fuel. *)

From Stdlib Require Import Ascii.
From stdpp Require Import gmap strings list fin_maps.

(* ===================================================================== *)
(** * Python strings *)
(* ===================================================================== *)

Module PyStr.

(** The line feed, ["\n"]. *)
Definition LF : string := String "010"%char "".

(** [s.startswith(p)]. *)
Fixpoint startswith (p s : string) : bool :=
  match p, s with
  | EmptyString, _ => true
  | String _ _, EmptyString => false
  | String a p', String b s' => if Ascii.eqb a b then startswith p' s' else false
  end.

(** [sub in s]: [sub] occurs in [s] as a contiguous substring. *)
Fixpoint contains (sub s : string) : bool :=
  startswith sub s ||
  match s with
  | EmptyString => false
  | String _ s' => contains sub s'
  end.

(** [s.split(sep)] for a non-empty separator: the pieces of [s] between
    the non-overlapping occurrences of [sep], scanned from the left.
    [split_from skip s] returns the piece being read and the pieces after
    it; [skip] counts the characters of a separator still to be dropped. *)
Fixpoint split_from (sep : string) (skip : nat) (s : string) : string * list string :=
  match s with
  | EmptyString => (EmptyString, [])
  | String c s' =>
      match skip with
      | S k => split_from sep k s'
      | O =>
          if startswith sep s
          then (EmptyString,
                let '(h, t) := split_from sep (String.length sep - 1) s' in h :: t)
          else let '(h, t) := split_from sep O s' in (String c h, t)
      end
  end.

Definition split (sep s : string) : list string :=
  let '(h, t) := split_from sep O s in h :: t.

(** The carriage return, ["\r"]. *)
Definition CR : string := String "013"%char "".

(** What a file opened in text mode with the default [newline=None]
    hands to the reader: ["\r\n"] and a lone ["\r"] both become
    ["\n"]. *)
Fixpoint universal_newlines (s : string) : string :=
  match s with
  | EmptyString => EmptyString
  | String c s' =>
      if Ascii.eqb c "013"%char
      then if startswith LF s' then universal_newlines s'
           else String "010"%char (universal_newlines s')
      else String c (universal_newlines s')
  end.

(** [bytes.decode('utf-8')], the decoding of a file opened in text mode
    where the preferred encoding is UTF-8: [None] is the
    [UnicodeDecodeError].  [utf8_from need lo hi s] reads [s] with [need]
    continuation bytes still due, the next of them within [lo..hi]; the
    ranges are those of well-formed UTF-8 (no overlong form, no surrogate,
    nothing above U+10FFFF).  The text is kept in its UTF-8 form: the
    script searches and splits it with ASCII strings only, which gives on
    the UTF-8 form the UTF-8 form of what it gives on the text. *)
Fixpoint utf8_from (need lo hi : nat) (s : string) : bool :=
  match s with
  | EmptyString => Nat.eqb need 0
  | String c s' =>
      let b := nat_of_ascii c in
      match need with
      | O =>
          if b <? 128 then utf8_from 0 128 191 s'
          else if (194 <=? b) && (b <=? 223) then utf8_from 1 128 191 s'
          else if b =? 224 then utf8_from 2 160 191 s'
          else if b =? 237 then utf8_from 2 128 159 s'
          else if (225 <=? b) && (b <=? 239) then utf8_from 2 128 191 s'
          else if b =? 240 then utf8_from 3 144 191 s'
          else if (241 <=? b) && (b <=? 243) then utf8_from 3 128 191 s'
          else if b =? 244 then utf8_from 3 128 143 s'
          else false
      | S k =>
          if (lo <=? b) && (b <=? hi) then utf8_from k 128 191 s' else false
      end
  end.

Definition decode (bytes : string) : option string :=
  if utf8_from 0 128 191 bytes then Some bytes else None.

(** [f.readlines()] on the text of a file (after newline translation):
    every line keeps its terminating line feed; a last line without one
    is returned as it is. *)
Fixpoint readlines_from (s : string) : string * list string :=
  match s with
  | EmptyString => (EmptyString, [])
  | String c s' =>
      let '(h, t) := readlines_from s' in
      if Ascii.eqb c "010"%char
      then (String c EmptyString, if String.eqb h EmptyString then t else h :: t)
      else (String c h, t)
  end.

Definition readlines (s : string) : list string :=
  let '(h, t) := readlines_from s in
  if String.eqb h EmptyString then t else h :: t.

End PyStr.

(* ===================================================================== *)
(** * pathlib, POSIX flavour *)
(* ===================================================================== *)

Module PyPath.
Import PyStr.

(** A pure path: its root ([""], ["/"] or ["//"]) and its components.
    Paths are kept as [pathlib] normalises them: no empty component and
    no ["."] component; [".."] is kept as it is. *)
Record Path := mkPath { root : string; parts : list string }.

Fixpoint join (sep : string) (l : list string) : string :=
  match l with
  | [] => EmptyString
  | [x] => x
  | x :: l' => x +:+ sep +:+ join sep l'
  end.

(** Exactly two leading slashes are kept, any other number collapses to
    one. *)
Definition splitroot (s : string) : string :=
  match s with
  | String "/"%char (String "/"%char (String "/"%char _)) => "/"
  | String "/"%char (String "/"%char _) => "//"
  | String "/"%char _ => "/"
  | _ => ""
  end.

Definition is_component (x : string) : bool :=
  negb (String.eqb x "") && negb (String.eqb x ".").

Definition parse_parts (s : string) : list string :=
  List.filter is_component (split "/" s).

(** [Path(s)]. *)
Definition Path_of (s : string) : Path :=
  {| root := splitroot s; parts := parse_parts s |}.

(** [str(p)]. *)
Definition str (p : Path) : string :=
  match root p, parts p with
  | EmptyString, [] => "."
  | r, ps => r +:+ join "/" ps
  end.

(** [p / key] for a string [key]: an absolute [key] replaces [p]. *)
Definition truediv (p : Path) (key : string) : Path :=
  let q := Path_of key in
  match root q with
  | EmptyString => {| root := root p; parts := parts p ++ parts q |}
  | _ => q
  end.

(** [p.name]: the final component, [""] when there is none. *)
Definition name (p : Path) : string := List.last (parts p) "".

(** [p.parent]. *)
Definition parent (p : Path) : Path :=
  {| root := root p; parts := List.removelast (parts p) |}.

(** [s.rfind('.')]. *)
Fixpoint rfind_dot (s : string) : option nat :=
  match s with
  | EmptyString => None
  | String c s' =>
      match rfind_dot s' with
      | Some i => Some (S i)
      | None => if Ascii.eqb c "."%char then Some 0 else None
      end
  end.

(** The length of [p.stem] for a final component [nm]: the suffix starts
    at the last dot, unless that dot is the first or the last character. *)
Definition stem_length (nm : string) : nat :=
  match rfind_dot nm with
  | Some i =>
      if (0 <? i) && (i <? String.length nm - 1) then i else String.length nm
  | None => String.length nm
  end.

(** [p.with_suffix(suffix)] for a well-formed [suffix] such as [".pdf"];
    [None] is the [ValueError] raised for a path with an empty name. *)
Definition with_suffix (p : Path) (suffix : string) : option Path :=
  let nm := name p in
  if String.eqb nm "" then None
  else Some {| root := root p;
               parts := List.removelast (parts p)
                        ++ [String.substring 0 (stem_length nm) nm +:+ suffix] |}.

End PyPath.

Abbreviation Path := PyPath.Path.

(* ===================================================================== *)
(** * The local file system *)
(* ===================================================================== *)

(** What the script can observe of the local disk: which paths exist,
    which of them are directories, and what the files hold.  Paths are
    compared as [pathlib] prints them; [".."] and symbolic links are not
    resolved, and a path without components (["."], ["/"]) is a directory
    that always exists.  The operations fail as POSIX makes them fail on
    missing or wrong-kind entries; permissions, disk space and the limits
    on the length of names are not modelled.  The content of a file is a
    byte string. *)

Module LocalFS.
Import PyPath.

Inductive node := Dir | File (content : string).

#[global] Instance node_eq_dec : EqDecision node.
Proof. solve_decision. Defined.

Abbreviation filesystem := (gmap string node).

(** [p.exists()]. *)
Definition exists_ (fs : filesystem) (p : Path) : bool :=
  match parts p with
  | [] => true
  | _ => match fs !! str p with Some _ => true | None => false end
  end.

(** [p.is_dir()]. *)
Definition is_dir (fs : filesystem) (p : Path) : bool :=
  match parts p with
  | [] => true
  | _ => match fs !! str p with Some Dir => true | _ => false end
  end.

Definition is_file (fs : filesystem) (p : Path) : bool :=
  match parts p, fs !! str p with
  | _ :: _, Some (File _) => true
  | _, _ => false
  end.

(** The path itself and its ancestors that have a component, outermost
    first. *)
Definition lineage (p : Path) : list Path :=
  List.map (fun k => {| root := root p; parts := take (S k) (parts p) |})
           (seq 0 (List.length (parts p))).

(** [p.mkdir(parents=True, exist_ok=True)]: raises (here [None]) when the
    path or one of its ancestors is an existing file, and otherwise
    creates whatever is missing along the path. *)
Definition mkdir (fs : filesystem) (p : Path) : option filesystem :=
  if existsb (is_file fs) (lineage p) then None
  else Some (List.fold_left (fun m q => <[str q := Dir]> m) (lineage p) fs).

(** [open(p, 'wb')] followed by [write(data)]: raises when [p] is a
    directory or when its parent is not an existing directory, and
    otherwise creates the file or replaces its content. *)
Definition can_open_wb (fs : filesystem) (p : Path) : bool :=
  negb (is_dir fs p) && is_dir fs (parent p).

Definition write_file (fs : filesystem) (p : Path) (data : string) : option filesystem :=
  if can_open_wb fs p then Some (<[str p := File data]> fs) else None.

(** [open(s, 'r')] and the reading of the whole file, for the path string
    [s] handed to the system as it is.  [NoSuchFile] is the
    [FileNotFoundError] (an empty path, or nothing at the path);
    [OtherError] stands for the errors that are not a
    [FileNotFoundError]: the [ValueError] of a path with a null
    character, the [IsADirectoryError] of a directory, the
    [NotADirectoryError] of a path that runs through a file or asks, by a
    final slash or dot, for a file to be a directory.  The content is
    given as the bytes of the file, still to be decoded. *)
Inductive opened := Opened (content : string) | NoSuchFile | OtherError.

Definition wants_directory (s : string) : bool :=
  let final := List.last (PyStr.split "/" s) "" in
  String.eqb final "" || String.eqb final ".".

Definition open_r (fs : filesystem) (s : string) : opened :=
  if String.eqb s "" then NoSuchFile
  else if PyStr.contains (String "000"%char "") s then OtherError
  else
    let p := Path_of s in
    match parts p with
    | [] => OtherError
    | _ =>
        if existsb (is_file fs) (lineage (parent p)) then OtherError
        else
          match fs !! str p with
          | None => NoSuchFile
          | Some Dir => OtherError
          | Some (File content) =>
              if wants_directory s then OtherError else Opened content
          end
    end.

End LocalFS.

Abbreviation filesystem := LocalFS.filesystem.

(* ===================================================================== *)
(** * The remote service *)
(* ===================================================================== *)

(** One result of a listing: the keys of a PyDrive file resource the
    script reads.  ['downloadUrl'] and ['exportLinks'] may be absent;
    ['exportLinks'] is a dictionary from MIME type to link. *)
Record RemoteEntry := mkEntry {
  entry_id : string;
  title : string;
  mimeType : string;
  downloadUrl : option string;
  exportLinks : option (gmap string string)
}.

#[global] Instance RemoteEntry_eq_dec : EqDecision RemoteEntry.
Proof. solve_decision. Defined.

(** The authenticated [GoogleDrive] object, as the script uses it.  Every
    call may raise (answer [None]).  A value of this type holds the
    answers the service gives while it is used: the same call gives the
    same answer.  [google_drive_bulk_download] uses one value for the
    whole run, so the statements about it are about runs during which the
    answers do not change; a statement that compares the counting pass
    with the walk beyond that takes one value for each of them.
    - [ListFile id]: [drive.ListFile({'q': "'id' in parents and
      trashed=false"}).GetList()];
    - [CreateFile_title id]: [drive.CreateFile({'id': id})['title']];
    - [FetchContent id]: the bytes [file.GetContentFile] fetches for the
      file [id] before it writes them;
    - [http_request link]: the body of
      [drive.auth.service._http.request(link)]. *)
Record GoogleDrive := mkDrive {
  ListFile : string -> option (list RemoteEntry);
  CreateFile_title : string -> option string;
  FetchContent : string -> option string;
  http_request : string -> option string
}.

Definition is_folder (file : RemoteEntry) : bool :=
  String.eqb (mimeType file) "application/vnd.google-apps.folder".

(* ===================================================================== *)
(** * Program state, log and exceptions *)
(* ===================================================================== *)

Inductive level := INFO | WARNING | ERROR.

(** The lines the script logs, one constructor per call of [logging];
    the text of the caught exception is left out. *)
Inductive message :=
| AuthenticationSuccessful
| AuthenticationFailed
| ListFailed (folder_id : string)
| ProcessingFolder (folder_name : string)
| MetadataFailed (folder_id : string)
| SkippedExists (file_title : string)
| Downloaded (file_title : string) (file_path : string)
| Exported (file_title : string)
| NoExportLink (file_title : string)
| NotDownloadable (file_title : string)
| ProcessFailed (file_title : string)
| NoValidFolderIds
| CountingAllFiles
| TotalFiles (total_files : nat)
| LinksFileNotFound (links_file_path : string)
| InvalidLinkFormat (line : string).

Definition level_of (m : message) : level :=
  match m with
  | AuthenticationSuccessful | ProcessingFolder _ | SkippedExists _
  | Downloaded _ _ | Exported _ | CountingAllFiles | TotalFiles _ => INFO
  | NoExportLink _ | NotDownloadable _ | InvalidLinkFormat _ => WARNING
  | AuthenticationFailed | ListFailed _ | MetadataFailed _ | ProcessFailed _
  | NoValidFolderIds | LinksFileNotFound _ => ERROR
  end.

(** What a run does that can be observed from outside, besides the final
    disk: the log lines and the calls that touch the network or write to
    the disk, whether they succeed or raise. *)
Inductive event :=
| Log (m : message)
| Call_mkdir (path : string)
| Call_GetContentFile (file_id : string) (filename : string)
| Call_request (link : string)
| Call_open_wb (filename : string).

(** The progress bar: [tqdm(total=...)] and its counter. *)
Record tqdm := mkTqdm { total : nat; n : nat }.

(** The state a run threads: the disk, the global [progress_bar] ([None]
    until [google_drive_bulk_download] creates it) and the events so far,
    the latest first. *)
Record state := mkState {
  fs : filesystem;
  progress_bar : option tqdm;
  trace : list event
}.

Inductive res (A : Type) :=
| Ok (a : A) (st : state)      (* returned [a] *)
| Raised (st : state)          (* an exception is propagating *)
| OutOfFuel.                   (* the embedding ran out of fuel *)
Arguments Ok {A} a st.
Arguments Raised {A} st.
Arguments OutOfFuel {A}.

Definition M (A : Type) : Type := state -> res A.

#[global] Instance M_ret : MRet M := fun A a st => Ok a st.
#[global] Instance M_bind : MBind M := fun A B f m st =>
  match m st with
  | Ok a st' => f a st'
  | Raised st' => Raised st'
  | OutOfFuel => OutOfFuel
  end.

Definition raise {A} : M A := fun st => Raised st.
Definition out_of_fuel {A} : M A := fun _ => OutOfFuel.

(** [try: body except Exception: handler]. *)
Definition try_except {A} (body handler : M A) : M A := fun st =>
  match body st with
  | Raised st' => handler st'
  | r => r
  end.

Definition emit (e : event) : M unit := fun st =>
  Ok () {| fs := fs st; progress_bar := progress_bar st; trace := e :: trace st |}.

Definition log (m : message) : M unit := emit (Log m).

(** An operation of a library that raises when it has no answer. *)
Definition get {A} (o : option A) : M A :=
  match o with
  | Some a => mret a
  | None => raise
  end.

(** [for x in l: acc = body(acc, x)]. *)
Fixpoint for_fold {A X} (body : A -> X -> M A) (l : list X) (acc : A) : M A :=
  match l with
  | [] => mret acc
  | x :: l' => acc' ← body acc x; for_fold body l' acc'
  end.

(** [for x in l: body(x)]. *)
Definition for_each {X} (body : X -> M unit) (l : list X) : M unit :=
  for_fold (fun _ x => body x) l ().

(** [progress_bar.update(k)]; on the initial [None] this is an
    [AttributeError]. *)
Definition update (k : nat) : M unit := fun st =>
  match progress_bar st with
  | Some bar =>
      Ok () {| fs := fs st;
               progress_bar := Some {| total := total bar; n := n bar + k |};
               trace := trace st |}
  | None => Raised st
  end.

Definition path_exists (p : Path) : M bool := fun st =>
  Ok (LocalFS.exists_ (fs st) p) st.

(** [p.mkdir(parents=True, exist_ok=True)]. *)
Definition mkdir (p : Path) : M unit := fun st =>
  let st' := {| fs := fs st; progress_bar := progress_bar st;
                trace := Call_mkdir (PyPath.str p) :: trace st |} in
  match LocalFS.mkdir (fs st) p with
  | Some fs' => Ok () {| fs := fs'; progress_bar := progress_bar st; trace := trace st' |}
  | None => Raised st'
  end.

(** [with open(p, 'wb') as f: f.write(data)]. *)
Definition open_wb_write (p : Path) (data : string) : M unit := fun st =>
  let st' := {| fs := fs st; progress_bar := progress_bar st;
                trace := Call_open_wb (PyPath.str p) :: trace st |} in
  match LocalFS.write_file (fs st) p data with
  | Some fs' => Ok () {| fs := fs'; progress_bar := progress_bar st; trace := trace st' |}
  | None => Raised st'
  end.

(* ===================================================================== *)
(** * The script *)
(* ===================================================================== *)

(** ** [authenticate_drive]

    The credential handling is PyDrive's; what the script adds is the log
    line and the re-raise.  [auth] is the outcome of the PyDrive calls:
    the authenticated object, or [None] when one of them raises. *)
Definition authenticate_drive (auth : option GoogleDrive) : M GoogleDrive :=
  try_except
    (drive ← get auth; _ ← log AuthenticationSuccessful; mret drive)
    (_ ← log AuthenticationFailed; raise).

(** ** [count_files] *)
(** Lines 76-80: the body of the loop over the children; [recurse] is the
    recursive call. *)
Definition count_child (recurse : string -> M nat) (count : nat) (file : RemoteEntry) : M nat :=
  if is_folder file
  then c ← recurse (entry_id file); mret (count + c)
  else mret (count + 1).

Fixpoint count_files (fuel : nat) (folder_id : string) (drive : GoogleDrive) : M nat :=
  match fuel with
  | O => out_of_fuel
  | S fuel' =>
      match ListFile drive folder_id with
      | None => _ ← log (ListFailed folder_id); mret 0
      | Some file_list =>
          for_fold (count_child (fun id => count_files fuel' id drive)) file_list 0
      end
  end.

(** ** [download_google_drive_folder] *)

(** Lines 102-106: the directory the folder is mirrored into. *)
Definition folder_output_path_for (folder_name : string) (output_directory : Path) : M Path :=
  let folder_output_path := output_directory in
  if negb (PyStr.contains folder_name (PyPath.str folder_output_path))
  then
    let folder_output_path := PyPath.truediv folder_output_path folder_name in
    _ ← mkdir folder_output_path;
    mret folder_output_path
  else mret folder_output_path.

(** [file.GetContentFile(filename)]: fetch, then write. *)
Definition GetContentFile (drive : GoogleDrive) (file : RemoteEntry) (file_path : Path) : M unit :=
  _ ← emit (Call_GetContentFile (entry_id file) (PyPath.str file_path));
  content ← get (FetchContent drive (entry_id file));
  open_wb_write file_path content.

(** [drive.auth.service._http.request(export_link)[1]]. *)
Definition request (drive : GoogleDrive) (export_link : string) : M string :=
  _ ← emit (Call_request export_link);
  get (http_request drive export_link).

(** Lines 119-144: the branch of the loop body for a child that is not a
    folder. *)
Definition download_file (drive : GoogleDrive) (folder_output_path : Path)
    (file : RemoteEntry) : M unit :=
  let file_path := PyPath.truediv folder_output_path (title file) in
  already ← path_exists file_path;
  if already : bool
  then
    _ ← log (SkippedExists (title file));
    update 1
  else
    _ ← match downloadUrl file with
        | Some _ =>
            _ ← GetContentFile drive file file_path;
            log (Downloaded (title file) (PyPath.str file_path))
        | None =>
            match exportLinks file with
            | Some links =>
                match links !! "application/pdf" with
                | Some (String _ _ as export_link) =>
                    response ← request drive export_link;
                    pdf_path ← get (PyPath.with_suffix file_path ".pdf");
                    _ ← open_wb_write pdf_path response;
                    log (Exported (title file))
                | _ => log (NoExportLink (title file))
                end
            | None => log (NotDownloadable (title file))
            end
        end;
    update 1.

(** Lines 115-146: the body of the loop over the children, with its
    [try]/[except]; [recurse] is the recursive call. *)
Definition process_child (recurse : string -> Path -> M unit) (drive : GoogleDrive)
    (folder_output_path : Path) (file : RemoteEntry) : M unit :=
  try_except
    (if is_folder file
     then recurse (entry_id file) folder_output_path
     else download_file drive folder_output_path file)
    (log (ProcessFailed (title file))).

Fixpoint download_google_drive_folder (fuel : nat) (folder_id : string)
    (output_directory : Path) (drive : GoogleDrive) : M unit :=
  match fuel with
  | O => out_of_fuel
  | S fuel' =>
      match CreateFile_title drive folder_id with
      | None => log (MetadataFailed folder_id)
      | Some folder_name =>
          _ ← log (ProcessingFolder folder_name);
          folder_output_path ← folder_output_path_for folder_name output_directory;
          match ListFile drive folder_id with
          | None => log (ListFailed folder_id)
          | Some file_list =>
              for_each
                (process_child
                   (fun id out => download_google_drive_folder fuel' id out drive)
                   drive folder_output_path)
                file_list
          end
      end
  end.

(** ** [extract_folder_ids] *)

Definition marker : string := "drive.google.com/drive/folders/".

(** [line.split('/folders/')[1].split('?')[0]]; [None] is the
    [IndexError]. *)
Definition folder_id_of_line (line : string) : option string :=
  match PyStr.split "/folders/" line !! 1 with
  | Some after => PyStr.split "?" after !! 0
  | None => None
  end.

(** The body of the loop over the lines; the warning prints the line
    stripped of surrounding blanks. *)
Definition extract_line (folder_ids : list string) (line : string) : M (list string) :=
  if PyStr.contains marker line
  then
    match folder_id_of_line line with
    | Some folder_id => mret (folder_ids ++ [folder_id])
    | None => _ ← log (InvalidLinkFormat line); mret folder_ids
    end
  else mret folder_ids.

(** [open(links_file_path, 'r')] and [readlines()]: a missing file is the
    [FileNotFoundError] the function catches; any other error of [open],
    and the [UnicodeDecodeError] of [readlines], are not caught and leave
    the function.  The lines are those of the decoded text after newline
    translation. *)
Definition extract_folder_ids (links_file_path : string) : M (list string) := fun st =>
  match LocalFS.open_r (fs st) links_file_path with
  | LocalFS.NoSuchFile => (_ ← log (LinksFileNotFound links_file_path); mret []) st
  | LocalFS.OtherError => Raised st
  | LocalFS.Opened content =>
      match PyStr.decode content with
      | None => Raised st
      | Some text =>
          for_fold extract_line (PyStr.readlines (PyStr.universal_newlines text)) [] st
      end
  end.

(** ** [google_drive_bulk_download] *)

Definition set_progress_bar (bar : tqdm) : M unit := fun st =>
  Ok () {| fs := fs st; progress_bar := Some bar; trace := trace st |}.

(** Line 167: [sum(count_files(folder_id, drive) for folder_id in
    folder_ids)]. *)
Definition count_all (fuel : nat) (drive : GoogleDrive) (folder_ids : list string) : M nat :=
  for_fold (fun acc folder_id => c ← count_files fuel folder_id drive; mret (acc + c))
           folder_ids 0.

(** Lines 175-176: the loop over the root folders. *)
Definition download_all (fuel : nat) (drive : GoogleDrive) (output_directory_path : string)
    (folder_ids : list string) : M unit :=
  for_each
    (fun folder_id =>
       download_google_drive_folder fuel folder_id
         (PyPath.Path_of output_directory_path) drive)
    folder_ids.

Definition google_drive_bulk_download (fuel : nat) (auth : option GoogleDrive)
    (links_file_path output_directory_path : string) : M unit :=
  drive ← authenticate_drive auth;
  folder_ids ← extract_folder_ids links_file_path;
  match folder_ids with
  | [] => log NoValidFolderIds
  | _ =>
      _ ← log CountingAllFiles;
      total_files ← count_all fuel drive folder_ids;
      _ ← log (TotalFiles total_files);
      _ ← set_progress_bar {| total := total_files; n := 0 |};
      download_all fuel drive output_directory_path folder_ids
      (* [progress_bar.close()] only ends the display *)
  end.

(* ===================================================================== *)
(** * Vocabulary of the statements *)
(* ===================================================================== *)

(** The state after one more event. *)
Definition record (e : event) (st : state) : state :=
  {| fs := fs st; progress_bar := progress_bar st; trace := e :: trace st |}.

(** The state after the events [evs], the latest first. *)
Definition recorded (evs : list event) (st : state) : state :=
  {| fs := fs st; progress_bar := progress_bar st; trace := evs ++ trace st |}.

Definition is_error (e : event) : bool :=
  match e with
  | Log m => match level_of m with ERROR => true | _ => false end
  | _ => false
  end.

Definition is_warning (e : event) : bool :=
  match e with
  | Log m => match level_of m with WARNING => true | _ => false end
  | _ => false
  end.

(** Some line of the log is an error. *)
Definition has_error (evs : list event) : bool := existsb is_error evs.

(** The calls that fetch content from the remote service, and the calls
    that write a file. *)
Definition is_fetch (e : event) : bool :=
  match e with
  | Call_GetContentFile _ _ | Call_request _ => true
  | _ => false
  end.

Definition is_write (e : event) : bool :=
  match e with
  | Call_GetContentFile _ _ | Call_open_wb _ => true
  | _ => false
  end.

(** The bar after [k] more updates. *)
Definition advanced (k : nat) (bar : tqdm) : tqdm :=
  {| total := total bar; n := n bar + k |}.

(** A remote hierarchy, as a finite tree: what a folder holds at every
    depth.  Being a tree, it has no cycle. *)
#[warnings="-register-all"]
Inductive rnode :=
| RFile (file : RemoteEntry)
| RFolder (folder : RemoteEntry) (children : list rnode).

Definition entry_of (t : rnode) : RemoteEntry :=
  match t with
  | RFile file => file
  | RFolder folder _ => folder
  end.

(** The number of file entries in a hierarchy, at any depth; a folder
    counts for what it holds and not for itself. *)
Fixpoint descendant_files (t : rnode) : nat :=
  match t with
  | RFile _ => 1
  | RFolder _ children => sum_list (List.map descendant_files children)
  end.

(** The number of folders nested below one another. *)
Fixpoint depth (t : rnode) : nat :=
  match t with
  | RFile _ => 0
  | RFolder _ children => S (max_list (List.map depth children))
  end.

(** The lister answers as the tree says, successfully, at every folder of
    the tree; the entries are classified by their MIME type. *)
Fixpoint mirrors (drive : GoogleDrive) (t : rnode) : bool :=
  match t with
  | RFile file => negb (is_folder file)
  | RFolder folder children =>
      is_folder folder
      && bool_decide (ListFile drive (entry_id folder) = Some (List.map entry_of children))
      && forallb (mirrors drive) children
  end.

(** [children] is the hierarchy below the folder [folder_id]. *)
Definition hierarchy_below (drive : GoogleDrive) (folder_id : string)
    (children : list rnode) : bool :=
  bool_decide (ListFile drive folder_id = Some (List.map entry_of children))
  && forallb (mirrors drive) children.

(** The folders reachable from [folder_id] through successful listings
    are nested at most [fuel] deep; in particular no folder is reached
    from itself. *)
Fixpoint bounded (fuel : nat) (drive : GoogleDrive) (folder_id : string) : bool :=
  match fuel with
  | O => false
  | S fuel' =>
      match ListFile drive folder_id with
      | None => true
      | Some file_list =>
          forallb (fun file => negb (is_folder file) || bounded fuel' drive (entry_id file))
                  file_list
      end
  end.

(** [file['exportLinks'].get('application/pdf')] when it is a usable
    link: present and not the empty string. *)
Definition pdf_link (file : RemoteEntry) : option string :=
  match exportLinks file with
  | Some links =>
      match links !! "application/pdf" with
      | Some (String c l) => Some (String c l)
      | _ => None
      end
  | None => None
  end.

(** The log lines that end the per-file block when nothing was raised. *)
Definition file_done (file : RemoteEntry) (m : message) : Prop :=
  m = SkippedExists (title file)
  \/ (exists file_path, m = Downloaded (title file) file_path)
  \/ m = Exported (title file)
  \/ m = NoExportLink (title file)
  \/ m = NotDownloadable (title file).

(* ===================================================================== *)
(** * Scenarios and run invariants *)
(* ===================================================================== *)

Definition folder_mime : string := "application/vnd.google-apps.folder".

(** A remote service on which every call succeeds: folders are listed
    from the table [listing], every folder is titled by [titles], every
    fetch returns the same few bytes. *)
Definition table_drive (listing : list (string * list RemoteEntry))
    (titles : list (string * string)) : GoogleDrive :=
  {| ListFile := fun folder_id =>
       Some (default [] (snd <$> List.find (fun kv => String.eqb (fst kv) folder_id) listing));
     CreateFile_title := fun folder_id =>
       Some (default "Untitled" (snd <$> List.find (fun kv => String.eqb (fst kv) folder_id) titles));
     FetchContent := fun _ => Some "content";
     http_request := fun _ => Some "%PDF" |}.

(** The same service with the network down for content: listings and
    metadata answer, fetches raise. *)
Definition offline (drive : GoogleDrive) : GoogleDrive :=
  {| ListFile := ListFile drive;
     CreateFile_title := CreateFile_title drive;
     FetchContent := fun _ => None;
     http_request := fun _ => None |}.

Definition plain_file (file_id file_title : string) : RemoteEntry :=
  {| entry_id := file_id; title := file_title; mimeType := "text/plain";
     downloadUrl := Some "https://content"; exportLinks := None |}.

Definition google_doc (file_id file_title : string) (links : gmap string string) : RemoteEntry :=
  {| entry_id := file_id; title := file_title;
     mimeType := "application/vnd.google-apps.document";
     downloadUrl := None; exportLinks := Some links |}.

Definition subfolder (folder_id folder_title : string) : RemoteEntry :=
  {| entry_id := folder_id; title := folder_title; mimeType := folder_mime;
     downloadUrl := None; exportLinks := None |}.

Definition pdf_links : gmap string string :=
  {[ "application/pdf" := "https://export?format=pdf" ]}.

Definition txt_links : gmap string string :=
  {[ "text/plain" := "https://export?format=txt" ]}.

(** A run in progress: the disk [disk], a bar at [k] of [t], an empty log. *)
Definition running (disk : filesystem) (t k : nat) : state :=
  {| fs := disk; progress_bar := Some {| total := t; n := k |}; trace := [] |}.

Definition no_recursion : string -> Path -> M unit := fun _ _ => mret ().

Definition st_links (text : string) : state :=
  {| fs := {[ "download_links.txt" := LocalFS.File text ]};
     progress_bar := None; trace := [] |}.


(** A small remote hierarchy: the root ["R"] holds two files and the
    folder ["A"], which holds a file and the folder ["B"], which holds a
    Google document. *)
Definition sample_tree : list rnode :=
  [ RFile (plain_file "f1" "a.txt");
    RFolder (subfolder "A" "Album")
      [ RFile (plain_file "f2" "b.txt");
        RFolder (subfolder "B" "Notes") [ RFile (google_doc "d1" "Report.docx" pdf_links) ] ];
    RFile (plain_file "f3" "c.txt") ].

Definition sample_drive : GoogleDrive :=
  table_drive
    [ ("R", [plain_file "f1" "a.txt"; subfolder "A" "Album"; plain_file "f3" "c.txt"]);
      ("A", [plain_file "f2" "b.txt"; subfolder "B" "Notes"]);
      ("B", [google_doc "d1" "Report.docx" pdf_links]) ]
    [ ("R", "Root"); ("A", "Album"); ("B", "Notes") ].

(** From [st] to [st'] the run only added events and kept the bar's
    total; if none of the added events is an error, the bar moved by [k]. *)
Definition run_from (k : nat) (st st' : state) : Prop :=
  exists evs bar bar',
    trace st' = evs ++ trace st
    /\ progress_bar st = Some bar
    /\ progress_bar st' = Some bar'
    /\ total bar' = total bar
    /\ (has_error evs = false -> n bar' = n bar + k).

(** The same without a count, for a state in which an exception is
    propagating. *)
Definition interrupted (st st' : state) : Prop :=
  exists evs bar bar',
    trace st' = evs ++ trace st
    /\ progress_bar st = Some bar
    /\ progress_bar st' = Some bar'
    /\ total bar' = total bar.

(** A folder that holds a file and a folder of the same name ["x"], which
    Drive allows; every call of the service succeeds. *)
Definition clash_drive : GoogleDrive :=
  table_drive
    [ ("R", [plain_file "f1" "x"; subfolder "D" "x"]);
      ("D", [plain_file "f2" "y"]) ]
    [ ("R", "Root"); ("D", "x") ].

(** The state a run starts in: the links file on the disk, no progress
    bar yet, an empty log. *)
Definition start (links : string) : state :=
  {| fs := {[ "links.txt" := LocalFS.File links ]}; progress_bar := None; trace := [] |}.

(** The service [drive] with the metadata request failing for the folders
    [no_metadata] and the listing failing for the folders [no_listing]. *)
Definition failing (no_metadata no_listing : list string) (drive : GoogleDrive) : GoogleDrive :=
  {| ListFile := fun folder_id =>
       if existsb (String.eqb folder_id) no_listing then None else ListFile drive folder_id;
     CreateFile_title := fun folder_id =>
       if existsb (String.eqb folder_id) no_metadata then None
       else CreateFile_title drive folder_id;
     FetchContent := FetchContent drive;
     http_request := http_request drive |}.

Definition sharing_link (folder_id : string) : string :=
  "https://drive.google.com/drive/folders/" +:+ folder_id +:+ "?usp=sharing" +:+ PyStr.LF.

(** A folder that holds one Google document, which can only be exported. *)
Definition doc_drive : GoogleDrive :=
  table_drive [ ("R", [google_doc "d1" "Report" pdf_links]) ] [ ("R", "Root") ].

(** The state in which the script is started again on the disk a run
    left behind. *)
Definition rerun (st : state) : state :=
  {| fs := fs st; progress_bar := None; trace := [] |}.

(** The state the per-file block ends in when nothing raises: from [st],
    whose bar was [bar], the events [evs] happened, the disk is [disk] and
    the bar moved by one. *)
Definition processed (st : state) (bar : tqdm) (disk : filesystem) (evs : list event) : state :=
  {| fs := disk; progress_bar := Some (advanced 1 bar); trace := evs ++ trace st |}.

(** The identifier the extractor reads on a line that holds the marker. *)
Definition id_on_line (line : string) : string :=
  default "" (folder_id_of_line line).

(** A call that reaches the remote service or changes the disk. *)
Definition is_call (e : event) : bool :=
  match e with
  | Log _ => false
  | _ => true
  end.

(** What holds of the state a computation ends in, whether it returns or
    raises. *)
Definition ends_in {A} (P : state -> Prop) (r : res A) : Prop :=
  match r with
  | Ok _ st' => P st'
  | Raised st' => P st'
  | OutOfFuel => True
  end.

(** [m] takes every state to a state related to it by [R]. *)
Definition preserves {A} (R : state -> state -> Prop) (m : M A) : Prop :=
  forall st, ends_in (R st) (m st).

Definition is_dir_node (v : LocalFS.node) : bool :=
  match v with
  | LocalFS.Dir => true
  | LocalFS.File _ => false
  end.

(** Every entry of [disk] is still there in [disk'], a directory as a
    directory and a file as a file. *)
Definition kept (disk disk' : filesystem) : Prop :=
  forall key v,
    disk !! key = Some v ->
    exists v', disk' !! key = Some v' /\ is_dir_node v' = is_dir_node v.

(** The events only accumulate. *)
Definition grown (st st' : state) : Prop :=
  exists evs, trace st' = evs ++ trace st.

(** A file entry that the walker would export as PDF. *)
Definition is_exported (file : RemoteEntry) : bool :=
  match downloadUrl file, pdf_link file with
  | None, Some _ => true
  | _, _ => false
  end.

(** No file entry reachable from [folder_id] within [fuel] levels is one
    the walker would export as PDF. *)
Fixpoint export_free (fuel : nat) (drive : GoogleDrive) (folder_id : string) : bool :=
  match fuel with
  | O => true
  | S fuel' =>
      match ListFile drive folder_id with
      | None => true
      | Some file_list =>
          forallb (fun file =>
                     if is_folder file then export_free fuel' drive (entry_id file)
                     else negb (is_exported file))
                  file_list
      end
  end.

(** An event of a quiet run: not a fetch, not a write, not an error. *)
Definition is_quiet (e : event) : bool :=
  negb (is_fetch e || is_write e || is_error e).

(** From [st] to [st'] the disk did not change, only quiet events were
    added, and there is still a progress bar. *)
Definition quiet_step (st st' : state) : Prop :=
  fs st' = fs st
  /\ (exists evs, trace st' = evs ++ trace st /\ forallb is_quiet evs = true)
  /\ is_Some (progress_bar st').


(** A hierarchy without Google documents: two plain files, one of them in
    a subfolder, and an entry that can be neither downloaded nor
    exported. *)
Definition plain_drive : GoogleDrive :=
  table_drive
    [ ("R", [plain_file "f1" "a.txt"; subfolder "A" "Album";
             {| entry_id := "s1"; title := "shortcut"; mimeType := "application/vnd.google-apps.shortcut";
                downloadUrl := None; exportLinks := None |}]);
      ("A", [plain_file "f2" "b.txt"]) ]
    [ ("R", "Root"); ("A", "Album") ].


(** From [st] to [st'] the bar kept its total and moved forward by at
    most [k]. *)
Definition within (k : nat) (st st' : state) : Prop :=
  exists bar bar',
    progress_bar st = Some bar
    /\ progress_bar st' = Some bar'
    /\ total bar' = total bar
    /\ n bar <= n bar'
    /\ n bar' <= n bar + k.

(** The disk of [st'] extends the disk of [st]: every path of [st] is
    still there with the same node. *)
Definition disk_extended (st st' : state) : Prop := fs st ⊆ fs st'.

(** [st'] has the disk and the bar of [st]: at most the log differs. *)
Definition same_store (st st' : state) : Prop :=
  fs st' = fs st /\ progress_bar st' = progress_bar st.

(** The counter of the bar, if there is a bar, is within its total. *)
Definition bar_in_range (st : state) : Prop :=
  match progress_bar st with
  | Some bar => n bar <= total bar
  | None => True
  end.

(** The log line that shows the loop over the children of a folder
    reached [file]: for a file entry the line its block ends with, for a
    folder entry the first line of its walk. *)
Definition reached (drive : GoogleDrive) (file : RemoteEntry) (m : message) : Prop :=
  if is_folder file
  then m = MetadataFailed (entry_id file)
       \/ exists folder_name,
            CreateFile_title drive (entry_id file) = Some folder_name
            /\ m = ProcessingFolder folder_name
  else file_done file m \/ m = ProcessFailed (title file).

(** From the log [before] to the log [after] the entries [files] were
    reached one after the other, each leaving its line. *)
Fixpoint reached_in_turn (drive : GoogleDrive) (files : list RemoteEntry)
    (before after : list event) : Prop :=
  match files with
  | [] => after = before
  | file :: rest =>
      exists evs m,
        In (Log m) evs
        /\ reached drive file m
        /\ reached_in_turn drive rest (evs ++ before) after
  end.

(** The state in which the download loop starts: the bar has just been
    made with the total [t]. *)
Definition bar_set (t : nat) (st : state) : state :=
  {| fs := fs st; progress_bar := Some {| total := t; n := 0 |}; trace := trace st |}.

(* ===================================================================== *)
(** * Sanity checks of the embedding *)
(* ===================================================================== *)

Example split_ex1 :
  PyStr.split "/folders/" "a/folders/b/folders/" = ["a"; "b"; ""].
Proof. reflexivity. Qed.

Example split_ex2 : PyStr.split "aa" "aaa" = [""; "a"].
Proof. reflexivity. Qed.

Example split_ex3 : PyStr.split "?" "ab?c?d" = ["ab"; "c"; "d"].
Proof. reflexivity. Qed.

Example readlines_ex :
  PyStr.readlines ("ab" +:+ PyStr.LF +:+ PyStr.LF +:+ "c")
  = ["ab" +:+ PyStr.LF; PyStr.LF; "c"].
Proof. reflexivity. Qed.

Example universal_newlines_ex :
  PyStr.readlines
    (PyStr.universal_newlines
       ("a" +:+ PyStr.CR +:+ PyStr.LF +:+ "b" +:+ PyStr.CR +:+ "c" +:+ PyStr.LF +:+ PyStr.CR))
  = ["a" +:+ PyStr.LF; "b" +:+ PyStr.LF; "c" +:+ PyStr.LF; PyStr.LF].
Proof. reflexivity. Qed.

Example decode_ex :
  List.map PyStr.decode
    [ "plain"; String "195" (String "169" "");
      String "255" ""; String "195" ""; String "192" (String "175" "");
      String "237" (String "160" (String "128" "")) ]
  = [ Some "plain"; Some (String "195" (String "169" "")); None; None; None; None ].
Proof. reflexivity. Qed.

Example open_r_ex :
  List.map (LocalFS.open_r {[ "links.txt" := LocalFS.File "x"; "d" := LocalFS.Dir ]})
    ["links.txt"; "./links.txt"; "none.txt"; ""; "."; "d"; "d/"; "links.txt/";
     "links.txt/x"; "d/none.txt"]
  = [LocalFS.Opened "x"; LocalFS.Opened "x"; LocalFS.NoSuchFile; LocalFS.NoSuchFile;
     LocalFS.OtherError; LocalFS.OtherError; LocalFS.OtherError; LocalFS.OtherError;
     LocalFS.OtherError; LocalFS.NoSuchFile].
Proof. reflexivity. Qed.

Example Path_of_ex :
  List.map (fun s => PyPath.str (PyPath.Path_of s))
    ["./Downloaded_Files"; "a//b/./c/"; "//x/y"; "///x"; ""; "/"; "a/.."]
  = ["Downloaded_Files"; "a/b/c"; "//x/y"; "/x"; "."; "/"; "a/.."].
Proof. reflexivity. Qed.

Example truediv_ex :
  List.map (fun key => PyPath.str (PyPath.truediv (PyPath.Path_of "out") key))
    ["a/b"; "/abs"; ""; "."]
  = ["out/a/b"; "/abs"; "out"; "out"].
Proof. reflexivity. Qed.

Example with_suffix_ex :
  List.map (fun nm => PyPath.str <$>
              PyPath.with_suffix (PyPath.truediv (PyPath.Path_of "d") nm) ".pdf")
    ["Doc"; "a.txt"; "archive.tar.gz"; ".bashrc"; "a."; "v1.2 notes"; ".."]
  = [Some "d/Doc.pdf"; Some "d/a.pdf"; Some "d/archive.tar.pdf";
     Some "d/.bashrc.pdf"; Some "d/a..pdf"; Some "d/v1.pdf"; Some "d/...pdf"].
Proof. reflexivity. Qed.

Example with_suffix_empty_name :
  PyPath.with_suffix (PyPath.Path_of ".") ".pdf" = None.
Proof. reflexivity. Qed.

(* ===================================================================== *)
(** * Python strings: facts *)
(* ===================================================================== *)

Section StringFacts.
Import PyStr.
Implicit Types (p s sub sep : string) (c : ascii).

Lemma sapp_cons c s t : String c s +:+ t = String c (s +:+ t).
Proof. reflexivity. Qed.

Lemma sapp_nil_l s : "" +:+ s = s.
Proof. reflexivity. Qed.

Lemma sapp_nil_r s : s +:+ "" = s.
Proof. induction s as [|c s IH]; [done | by rewrite sapp_cons, IH]. Qed.

Lemma sapp_assoc s1 s2 s3 : (s1 +:+ s2) +:+ s3 = s1 +:+ s2 +:+ s3.
Proof. induction s1 as [|c s1 IH]; [done | by rewrite !sapp_cons, IH]. Qed.

Lemma sapp_length s1 s2 : String.length (s1 +:+ s2) = String.length s1 + String.length s2.
Proof. induction s1 as [|c s1 IH]; [done | rewrite sapp_cons; simpl; by rewrite IH]. Qed.

Lemma startswith_app p s : startswith p (p +:+ s) = true.
Proof.
  induction p as [|c p IH]; [done |].
  rewrite sapp_cons; simpl. by rewrite Ascii.eqb_refl.
Qed.

Lemma startswith_inv p s : startswith p s = true -> exists r, s = p +:+ r.
Proof.
  revert s; induction p as [|a p IH]; intros s H.
  - by exists s.
  - destruct s as [|b s]; [done |]. simpl in H.
    destruct (Ascii.eqb a b) eqn:E; [| done].
    apply Ascii.eqb_eq in E as ->. destruct (IH _ H) as [r ->]. by exists r.
Qed.

Lemma startswith_long p a b :
  String.length p <= String.length a -> startswith p (a +:+ b) = startswith p a.
Proof.
  revert a; induction p as [|x p IH]; intros a Hl; [done |].
  destruct a as [|y a]; [simpl in Hl; lia |].
  rewrite sapp_cons. simpl in *.
  destruct (Ascii.eqb x y); [apply IH; lia | done].
Qed.

Lemma contains_app_r sub a b : contains sub b = true -> contains sub (a +:+ b) = true.
Proof.
  intros H. induction a as [|c a IH]; [done |].
  rewrite sapp_cons; simpl. rewrite IH. apply orb_true_r.
Qed.

Lemma contains_startswith sub s : startswith sub s = true -> contains sub s = true.
Proof. intros H. destruct s; simpl; by rewrite H. Qed.

Lemma contains_app sub a b : contains sub (a +:+ sub +:+ b) = true.
Proof. apply contains_app_r, contains_startswith, startswith_app. Qed.

Lemma contains_inv sub s : contains sub s = true -> exists a b, s = a +:+ sub +:+ b.
Proof.
  induction s as [|c s IH]; simpl; intros H.
  - apply orb_true_iff in H as [H|H]; [| done].
    destruct (startswith_inv _ _ H) as [r ->]. by exists "", r.
  - apply orb_true_iff in H as [H|H].
    + destruct (startswith_inv _ _ H) as [r Hr]. exists "", r. by rewrite Hr.
    + destruct (IH H) as (a & b & ->). by exists (String c a), b.
Qed.

Lemma contains_trans s1 s2 s3 :
  contains s1 s2 = true -> contains s2 s3 = true -> contains s1 s3 = true.
Proof.
  intros H12 H23.
  destruct (contains_inv _ _ H12) as (a & b & ->).
  destruct (contains_inv _ _ H23) as (a' & b' & ->).
  rewrite !sapp_assoc, <- (sapp_assoc a' a). apply contains_app.
Qed.

(** Splitting. *)
Lemma split_from_skip sep a s :
  split_from sep (String.length a) (a +:+ s) = split_from sep 0 s.
Proof.
  induction a as [|c a IH]; [by destruct s |].
  rewrite sapp_cons. simpl. exact IH.
Qed.

Lemma split_cons_sep c sep s :
  split (String c sep) (String c sep +:+ s) = "" :: split (String c sep) s.
Proof.
  pose proof (startswith_app (String c sep) s) as Hs.
  rewrite sapp_cons in Hs. unfold split. rewrite sapp_cons.
  cbn [split_from]. rewrite Hs.
  cbn [String.length]. rewrite Nat.sub_1_r. cbn [Nat.pred].
  rewrite split_from_skip. by destruct (split_from _ 0 s).
Qed.

Lemma split_cons_other c sep s :
  startswith sep (String c s) = false ->
  split sep (String c s) =
    match split sep s with
    | h :: t => String c h :: t
    | [] => []
    end.
Proof.
  intros H. unfold split. cbn [split_from]. rewrite H.
  by destruct (split_from sep 0 s).
Qed.

Lemma split_nil sep : split sep "" = [""].
Proof. reflexivity. Qed.

Lemma split_not_nil sep s : split sep s <> [].
Proof. unfold split. by destruct (split_from sep 0 s). Qed.

Lemma split_contains c sep s :
  contains (String c sep) s = true -> 2 <= length (split (String c sep) s).
Proof.
  induction s as [|a s IH]; [done |].
  intros H. destruct (startswith (String c sep) (String a s)) eqn:E.
  - destruct (startswith_inv _ _ E) as [r ->].
    rewrite split_cons_sep. simpl.
    pose proof (split_not_nil (String c sep) r).
    destruct (split _ r); [done | simpl; lia].
  - rewrite split_cons_other by done.
    simpl in H. simpl in E. rewrite E in H. simpl in H.
    specialize (IH H). destruct (split _ s); simpl in *; lia.
Qed.

(** The first piece ends at the first occurrence of the separator. *)
Lemma split_first sep_init l pre post :
  contains (sep_init +:+ String l "") (pre +:+ sep_init) = false ->
  split (sep_init +:+ String l "") (pre +:+ (sep_init +:+ String l "") +:+ post)
  = pre :: split (sep_init +:+ String l "") post.
Proof.
  set (sep := sep_init +:+ String l "").
  assert (Hsep : exists c r, sep = String c r).
  { subst sep. destruct sep_init; [by exists l, "" | by eexists _, _]. }
  destruct Hsep as (c & r & Hsep).
  induction pre as [|a pre IH]; intros H.
  - rewrite sapp_nil_l. rewrite Hsep. apply split_cons_sep.
  - rewrite sapp_cons. rewrite split_cons_other.
    + rewrite IH; [done |].
      rewrite sapp_cons in H. simpl in H. apply orb_false_iff in H. apply H.
    + rewrite <- sapp_cons.
      replace (String a pre +:+ sep +:+ post)
        with ((String a pre +:+ sep_init) +:+ String l post).
      2:{ subst sep. by rewrite !sapp_assoc. }
      rewrite startswith_long.
      * rewrite sapp_cons in H |- *. simpl in H. apply orb_false_iff in H. apply H.
      * subst sep. rewrite !sapp_length. simpl. lia.
Qed.


Lemma startswith_through p x c r :
  startswith p (x +:+ String c r) = true ->
  startswith p x = true \/ contains (String c "") p = true.
Proof.
  revert x; induction p as [|a p IH]; intros x H; [by left |].
  destruct x as [|b x].
  - right. rewrite sapp_nil_l in H. simpl in H |- *.
    destruct (Ascii.eqb a c) eqn:E; [| done].
    apply Ascii.eqb_eq in E as ->. by rewrite Ascii.eqb_refl.
  - rewrite sapp_cons in H. simpl in H |- *.
    destruct (Ascii.eqb a b); [| done].
    destruct (IH _ H) as [?|Hc]; [by left | right].
    rewrite Hc. apply orb_true_r.
Qed.

Lemma split_pass sep x c rest :
  contains sep x = false ->
  contains (String c "") sep = false ->
  split sep (x +:+ String c rest) =
    match split sep (String c rest) with
    | h :: t => (x +:+ h) :: t
    | [] => []
    end.
Proof.
  intros Hx Hc. induction x as [|b x IH].
  - rewrite sapp_nil_l. by destruct (split sep (String c rest)).
  - simpl in Hx. apply orb_false_iff in Hx as [Hb Hx].
    rewrite sapp_cons, split_cons_other.
    + rewrite (IH Hx). by destruct (split sep (String c rest)).
    + rewrite <- sapp_cons.
      destruct (startswith sep (String b x +:+ String c rest)) eqn:E; [| done].
      apply startswith_through in E as [E|E]; congruence.
Qed.

End StringFacts.

(* ===================================================================== *)
(** * The state monad: facts *)
(* ===================================================================== *)

Section Monad.
Context {A B : Type}.
Implicit Types (m : M A) (f : A -> M B).

Lemma bind_Ok m f st a st' : m st = Ok a st' -> (m ≫= f) st = f a st'.
Proof. intros H. unfold mbind, M_bind. by rewrite H. Qed.

Lemma bind_Raised m f st st' : m st = Raised st' -> (m ≫= f) st = Raised st'.
Proof. intros H. unfold mbind, M_bind. by rewrite H. Qed.

Lemma bind_OutOfFuel m f st : m st = OutOfFuel -> (m ≫= f) st = OutOfFuel.
Proof. intros H. unfold mbind, M_bind. by rewrite H. Qed.
End Monad.

Lemma log_Ok msg st : log msg st = Ok () (record (Log msg) st).
Proof. reflexivity. Qed.

Lemma update_Ok k st bar :
  progress_bar st = Some bar ->
  update k st = Ok () {| fs := fs st; progress_bar := Some (advanced k bar); trace := trace st |}.
Proof. intros H. unfold update. by rewrite H. Qed.

(* ===================================================================== *)
(** * The link extractor *)
(* ===================================================================== *)

Section LinkExtractor.
Import PyStr.

Lemma marker_contains_sep : contains "/folders/" marker = true.
Proof. reflexivity. Qed.

Lemma folder_id_of_line_total line :
  contains marker line = true -> exists folder_id, folder_id_of_line line = Some folder_id.
Proof.
  intros H.
  pose proof (contains_trans _ _ _ marker_contains_sep H) as Hs.
  apply split_contains in Hs. unfold folder_id_of_line.
  destruct (split "/folders/" line) as [|a [|after t]]; simpl in Hs; try lia.
  simpl. pose proof (split_not_nil "?" after).
  destruct (split "?" after) as [|x l]; [done |]. by exists x.
Qed.

Lemma folder_id_of_line_first pre post :
  contains "/folders/" (pre +:+ "/folders") = false ->
  folder_id_of_line (pre +:+ "/folders/" +:+ post)
  = split "?" (List.hd "" (split "/folders/" post)) !! 0.
Proof.
  intros H. unfold folder_id_of_line.
  pose proof (split_first "/folders" "/"%char pre post H) as E.
  change ("/folders" +:+ "/") with "/folders/" in E. rewrite E. simpl.
  pose proof (split_not_nil "/folders/" post).
  by destruct (split "/folders/" post) as [|h t].
Qed.

Lemma folder_id_empty pre post :
  contains "/folders/" (pre +:+ "/folders") = false ->
  post = "" \/ (exists r, post = "?" +:+ r) ->
  folder_id_of_line (pre +:+ "/folders/" +:+ post) = Some "".
Proof.
  intros H Hp. rewrite folder_id_of_line_first by done.
  destruct Hp as [-> | [r ->]]; [done |].
  change ("?" +:+ r) with (String "?"%char r).
  rewrite split_cons_other by done.
  pose proof (split_not_nil "/folders/" r).
  by destruct (split "/folders/" r) as [|h t].
Qed.

Lemma folder_id_query pre fid rest :
  contains "/folders/" (pre +:+ "/folders") = false ->
  contains "/folders/" fid = false ->
  contains "?" fid = false ->
  folder_id_of_line (pre +:+ "/folders/" +:+ fid +:+ "?" +:+ rest) = Some fid.
Proof.
  intros H Hf Hq. rewrite folder_id_of_line_first by done.
  change ("?" +:+ rest) with (String "?"%char rest).
  rewrite split_pass by done.
  rewrite split_cons_other by done.
  pose proof (split_not_nil "/folders/" rest).
  destruct (split "/folders/" rest) as [|h t]; [done |]. simpl.
  pose proof (split_first "" "?"%char fid h) as E.
  change ("" +:+ "?") with "?" in E. rewrite sapp_nil_r in E.
  change (String "?"%char h) with ("?" +:+ h). by rewrite E.
Qed.


Lemma extract_line_marker folder_ids line st :
  contains marker line = true ->
  exists folder_id,
    folder_id_of_line line = Some folder_id
    /\ extract_line folder_ids line st = Ok (folder_ids ++ [folder_id]) st.
Proof.
  intros H. destruct (folder_id_of_line_total line H) as [folder_id Hf].
  exists folder_id. split; [done |]. unfold extract_line. by rewrite H, Hf.
Qed.

End LinkExtractor.

(** C4 (the code departs from the claim): a link that ends its line
    without a query string is read with the line feed that [readlines]
    keeps, so the identifier returned is ["ABC\n"] and not ["ABC"]. *)
Theorem C4_line_terminator_kept :
  extract_folder_ids "./download_links.txt"
    (st_links ("https://drive.google.com/drive/folders/ABC" +:+ PyStr.LF))
  = Ok ["ABC" +:+ PyStr.LF]
       (st_links ("https://drive.google.com/drive/folders/ABC" +:+ PyStr.LF)).
Proof. reflexivity. Qed.

(** C10, as amended: a line that contains the marker always yields
    exactly one identifier and no warning; the identifier is empty when
    the first ["/folders/"] of the line is followed at once by ["?"] or by
    the end of the text read for the line. *)
Theorem C10_marker_line_appends_one (line : string) (folder_ids : list string) (st : state) :
  PyStr.contains marker line = true ->
  exists folder_id,
    extract_line folder_ids line st = Ok (folder_ids ++ [folder_id]) st
    /\ forall pre post,
         line = pre +:+ "/folders/" +:+ post ->
         PyStr.contains "/folders/" (pre +:+ "/folders") = false ->
         post = "" \/ (exists r, post = "?" +:+ r) ->
         folder_id = "".
Proof.
  intros H. destruct (extract_line_marker folder_ids line st H) as (folder_id & Hf & He).
  exists folder_id. split; [done |].
  intros pre post -> Hfirst Hpost.
  rewrite (folder_id_empty pre post Hfirst Hpost) in Hf. congruence.
Qed.

Lemma C10_witness :
  exists folder_id,
    extract_line ["A"] "see https://drive.google.com/drive/folders/?usp=sharing"
      (st_links "") = Ok (["A"] ++ [folder_id]) (st_links "")
    /\ folder_id = "".
Proof.
  destruct (C10_marker_line_appends_one
              "see https://drive.google.com/drive/folders/?usp=sharing" ["A"]
              (st_links "") eq_refl) as (folder_id & He & Hempty).
  exists folder_id. split; [exact He |].
  apply (Hempty "see https://drive.google.com/drive" "?usp=sharing");
    [reflexivity | reflexivity | right; by exists "usp=sharing"].
Defined.

(** C10, as stated, fails: with the marker followed at once by the end of
    the line the identifier is the line feed, and with an earlier
    ["/folders/"] on the line it is the text after that one. *)
Lemma C10_counterexample :
  extract_line [] ("https://drive.google.com/drive/folders/" +:+ PyStr.LF) (st_links "")
  = Ok [PyStr.LF] (st_links "")
  /\ PyStr.LF <> ""
  /\ extract_line [] "/folders/x drive.google.com/drive/folders/?usp=sharing" (st_links "")
    = Ok ["x drive.google.com/drive"] (st_links "").
Proof. repeat split; done. Qed.

(* ===================================================================== *)
(** * The per-file block *)
(* ===================================================================== *)

Section DownloadFile.
Variables (drive : GoogleDrive) (folder_output_path : Path) (file : RemoteEntry).
Variables (st : state) (bar : tqdm).
Hypothesis Hbar : progress_bar st = Some bar.

Local Abbreviation file_path := (PyPath.truediv folder_output_path (title file)).

Lemma download_file_exists :
  LocalFS.exists_ (fs st) file_path = true ->
  download_file drive folder_output_path file st
  = Ok () (processed st bar (fs st) [Log (SkippedExists (title file))]).
Proof.
  intros He. unfold download_file, mbind, M_bind, path_exists.
  rewrite He. cbn. by rewrite Hbar.
Qed.

Lemma download_file_direct url content fs' :
  LocalFS.exists_ (fs st) file_path = false ->
  downloadUrl file = Some url ->
  FetchContent drive (entry_id file) = Some content ->
  LocalFS.write_file (fs st) file_path content = Some fs' ->
  download_file drive folder_output_path file st
  = Ok () (processed st bar fs'
             [Log (Downloaded (title file) (PyPath.str file_path));
              Call_open_wb (PyPath.str file_path);
              Call_GetContentFile (entry_id file) (PyPath.str file_path)]).
Proof.
  intros He Hu Hc Hw.
  unfold download_file, GetContentFile, open_wb_write, mbind, M_bind, path_exists.
  rewrite He, Hu, Hc. cbn. rewrite Hw. cbn. by rewrite Hbar.
Qed.

Lemma download_file_export link response pdf_path fs' :
  LocalFS.exists_ (fs st) file_path = false ->
  downloadUrl file = None ->
  pdf_link file = Some link ->
  http_request drive link = Some response ->
  PyPath.with_suffix file_path ".pdf" = Some pdf_path ->
  LocalFS.write_file (fs st) pdf_path response = Some fs' ->
  download_file drive folder_output_path file st
  = Ok () (processed st bar fs'
             [Log (Exported (title file));
              Call_open_wb (PyPath.str pdf_path);
              Call_request link]).
Proof.
  intros He Hu Hl Hr Hs Hw. unfold pdf_link in Hl.
  unfold download_file, request, open_wb_write, mbind, M_bind, path_exists.
  rewrite He, Hu.
  destruct (exportLinks file) as [links|]; [| done].
  destruct (links !! "application/pdf") as [[|c l]|]; simplify_eq.
  cbn. rewrite Hr. cbn. rewrite Hs. cbn. rewrite Hw. cbn. by rewrite Hbar.
Qed.

Lemma download_file_no_pdf links :
  LocalFS.exists_ (fs st) file_path = false ->
  downloadUrl file = None ->
  exportLinks file = Some links ->
  pdf_link file = None ->
  download_file drive folder_output_path file st
  = Ok () (processed st bar (fs st) [Log (NoExportLink (title file))]).
Proof.
  intros He Hu Hx Hl. unfold pdf_link in Hl. rewrite Hx in Hl.
  unfold download_file, mbind, M_bind, path_exists.
  rewrite He, Hu, Hx.
  destruct (links !! "application/pdf") as [[|c l]|]; simplify_eq;
    cbn; by rewrite Hbar.
Qed.

Lemma download_file_neither :
  LocalFS.exists_ (fs st) file_path = false ->
  downloadUrl file = None ->
  exportLinks file = None ->
  download_file drive folder_output_path file st
  = Ok () (processed st bar (fs st) [Log (NotDownloadable (title file))]).
Proof.
  intros He Hu Hx.
  unfold download_file, mbind, M_bind, path_exists.
  rewrite He, Hu, Hx. cbn. by rewrite Hbar.
Qed.

(** Whatever the entry, the block either ends as above or raises with the
    bar as it was. *)
Lemma download_file_cases :
  (exists fs' m evs,
     download_file drive folder_output_path file st
     = Ok () (processed st bar fs' (Log m :: evs))
     /\ file_done file m /\ has_error evs = false)
  \/ (exists st',
     download_file drive folder_output_path file st = Raised st'
     /\ progress_bar st' = Some bar
     /\ exists evs, trace st' = evs ++ trace st /\ has_error evs = false).
Proof.
  unfold file_done.
  destruct (LocalFS.exists_ (fs st) file_path) eqn:He.
  { left. eexists _, _, []. rewrite download_file_exists by done. eauto. }
  destruct (downloadUrl file) as [url|] eqn:Hu.
  { destruct (FetchContent drive (entry_id file)) as [content|] eqn:Hc.
    - destruct (LocalFS.write_file (fs st) file_path content) as [fs'|] eqn:Hw.
      + left. eexists _, _, _. erewrite download_file_direct by done. eauto 6.
      + right. unfold download_file, GetContentFile, open_wb_write, mbind, M_bind,
          path_exists. rewrite He, Hu, Hc. cbn. rewrite Hw.
        eexists. split; [done |]. split; [done |]. by eexists [_; _].
    - right. unfold download_file, GetContentFile, open_wb_write, mbind, M_bind,
        path_exists. rewrite He, Hu, Hc. cbn.
      eexists. split; [done |]. split; [done |]. by eexists [_]. }
  destruct (exportLinks file) as [links|] eqn:Hx.
  2:{ left. eexists _, _, []. rewrite download_file_neither by done. eauto 8. }
  destruct (pdf_link file) as [link|] eqn:Hl.
  2:{ left. eexists _, _, []. erewrite download_file_no_pdf by done. eauto 8. }
  assert (Hlinks : exists c l, links !! "application/pdf" = Some (String c l)
                              /\ link = String c l).
  { unfold pdf_link in Hl. rewrite Hx in Hl.
    destruct (links !! "application/pdf") as [[|c l]|]; simplify_eq. eauto. }
  destruct Hlinks as (c & l & Hpdf & ->).
  destruct (http_request drive (String c l)) as [response|] eqn:Hr.
  2:{ right. unfold download_file, request, mbind, M_bind, path_exists.
      rewrite He, Hu, Hx, Hpdf. cbn. rewrite Hr. cbn.
      eexists. split; [done |]. split; [done |]. by eexists [_]. }
  destruct (PyPath.with_suffix file_path ".pdf") as [pdf_path|] eqn:Hs.
  2:{ right. unfold download_file, request, mbind, M_bind, path_exists.
      rewrite He, Hu, Hx, Hpdf. cbn. rewrite Hr. cbn. rewrite Hs. cbn.
      eexists. split; [done |]. split; [done |]. by eexists [_]. }
  destruct (LocalFS.write_file (fs st) pdf_path response) as [fs'|] eqn:Hw.
  - left. eexists _, _, _. erewrite download_file_export by done. eauto 8.
  - right. unfold download_file, request, open_wb_write, mbind, M_bind, path_exists.
    rewrite He, Hu, Hx, Hpdf. cbn. rewrite Hr. cbn. rewrite Hs. cbn.
    rewrite Hw.
    eexists. split; [done |]. split; [done |]. by eexists [_; _].
Qed.

End DownloadFile.

Lemma pdf_link_Some file links link :
  exportLinks file = Some links ->
  links !! "application/pdf" = Some link ->
  link <> "" ->
  pdf_link file = Some link.
Proof.
  intros Hx Hl Hne. unfold pdf_link. rewrite Hx, Hl. by destruct link.
Qed.

Lemma pdf_link_None file links :
  exportLinks file = Some links ->
  links !! "application/pdf" = None ->
  pdf_link file = None.
Proof. intros Hx Hl. unfold pdf_link. by rewrite Hx, Hl. Qed.

Lemma write_file_Some fs p data fs' :
  LocalFS.write_file fs p data = Some fs' ->
  fs' = <[PyPath.str p := LocalFS.File data]> fs.
Proof. unfold LocalFS.write_file. case_match; congruence. Qed.

(** The loop body on a child that is not a folder. *)
Lemma process_child_file recurse drive folder_output_path file st bar :
  is_folder file = false ->
  progress_bar st = Some bar ->
  exists st' m evs,
    process_child recurse drive folder_output_path file st = Ok () st'
    /\ trace st' = Log m :: evs ++ trace st
    /\ has_error evs = false
    /\ (file_done file m /\ progress_bar st' = Some (advanced 1 bar)
        \/ m = ProcessFailed (title file) /\ progress_bar st' = Some bar).
Proof.
  intros Hf Hbar. unfold process_child, try_except. rewrite Hf.
  destruct (download_file_cases drive folder_output_path file st bar Hbar)
    as [(fs' & m & evs & -> & Hm & He) | (st' & -> & Hb & evs & Ht & He)].
  - eexists _, m, evs. split; [done |]. split; [done |]. split; [done |]. by left.
  - eexists _, _, evs. split; [done |]. cbn. rewrite Ht.
    split; [done |]. split; [done |]. by right.
Qed.

(** C3, as amended: on a child that is not a folder the loop body always
    completes, and it ends in one of six ways, told apart by its last log
    line.  After "skipped, already exists", "downloaded", "exported" and
    the two warnings the bar has moved by exactly one; after "failed to
    process", the line of the [except] branch, it has not moved. *)
Theorem C3_counter_per_file recurse drive folder_output_path file st bar :
  is_folder file = false ->
  progress_bar st = Some bar ->
  exists st' m evs,
    process_child recurse drive folder_output_path file st = Ok () st'
    /\ trace st' = Log m :: evs
    /\ (file_done file m /\ progress_bar st' = Some (advanced 1 bar)
        \/ m = ProcessFailed (title file) /\ progress_bar st' = Some bar).
Proof.
  intros Hf Hbar.
  destruct (process_child_file recurse drive folder_output_path file st bar Hf Hbar)
    as (st' & m & evs & H1 & H2 & _ & H3).
  by exists st', m, (evs ++ trace st).
Qed.


(** C3, as stated, fails: when the fetch raises, the [except] branch logs
    the failure and the bar stays where it was (here at 0 of 1). *)
Lemma C3_counterexample :
  process_child no_recursion (offline (table_drive [] [])) (PyPath.Path_of "out")
    (plain_file "f1" "a.txt") (running {[ "out" := LocalFS.Dir ]} 1 0)
  = Ok () {| fs := {[ "out" := LocalFS.Dir ]};
             progress_bar := Some {| total := 1; n := 0 |};
             trace := [Log (ProcessFailed "a.txt");
                       Call_GetContentFile "f1" "out/a.txt"] |}.
Proof. vm_compute. reflexivity. Qed.

Lemma C3_witness :
  exists st' m evs,
    process_child no_recursion (table_drive [] []) (PyPath.Path_of "out")
      (plain_file "f1" "a.txt") (running {[ "out" := LocalFS.Dir ]} 1 0) = Ok () st'
    /\ trace st' = Log m :: evs
    /\ (file_done (plain_file "f1" "a.txt") m
        /\ progress_bar st' = Some (advanced 1 {| total := 1; n := 0 |})
        \/ m = ProcessFailed "a.txt"
           /\ progress_bar st' = Some {| total := 1; n := 0 |}).
Proof.
  apply (C3_counter_per_file no_recursion (table_drive [] []) (PyPath.Path_of "out")
           (plain_file "f1" "a.txt") (running {[ "out" := LocalFS.Dir ]} 1 0)
           {| total := 1; n := 0 |}); vm_compute; reflexivity.
Defined.

(** C7, as amended: take a file entry without a direct-download reference
    but with export references, and no file at the path built from its
    display name.  With a PDF reference whose request and write succeed,
    the bytes received are written at that path with its suffix replaced
    by [.pdf], and nothing else is written; with no PDF reference, the
    warning is logged and the disk is left as it was. *)
Theorem C7_export_as_pdf drive folder_output_path file links st bar :
  downloadUrl file = None ->
  exportLinks file = Some links ->
  LocalFS.exists_ (fs st) (PyPath.truediv folder_output_path (title file)) = false ->
  progress_bar st = Some bar ->
  (forall link response pdf_path,
     links !! "application/pdf" = Some link ->
     link <> "" ->
     http_request drive link = Some response ->
     PyPath.with_suffix (PyPath.truediv folder_output_path (title file)) ".pdf"
       = Some pdf_path ->
     LocalFS.can_open_wb (fs st) pdf_path = true ->
     download_file drive folder_output_path file st
     = Ok () {| fs := <[PyPath.str pdf_path := LocalFS.File response]> (fs st);
                progress_bar := Some (advanced 1 bar);
                trace := Log (Exported (title file))
                         :: Call_open_wb (PyPath.str pdf_path)
                         :: Call_request link :: trace st |})
  /\ (links !! "application/pdf" = None ->
      download_file drive folder_output_path file st
      = Ok () {| fs := fs st;
                 progress_bar := Some (advanced 1 bar);
                 trace := Log (NoExportLink (title file)) :: trace st |}
      /\ is_warning (Log (NoExportLink (title file))) = true).
Proof.
  intros Hu Hx He Hbar. split.
  - intros link response pdf_path Hl Hne Hr Hs Hw.
    erewrite download_file_export; eauto using pdf_link_Some.
    unfold LocalFS.write_file. by rewrite Hw.
  - intros Hl. split; [| done].
    erewrite download_file_no_pdf; eauto using pdf_link_None.
Qed.

Lemma C7_witness :
  download_file (table_drive [] []) (PyPath.Path_of "out")
    (google_doc "d1" "Report.docx" pdf_links) (running {[ "out" := LocalFS.Dir ]} 2 0)
  = Ok () {| fs := {[ "out" := LocalFS.Dir; "out/Report.pdf" := LocalFS.File "%PDF" ]};
             progress_bar := Some {| total := 2; n := 1 |};
             trace := [Log (Exported "Report.docx");
                       Call_open_wb "out/Report.pdf";
                       Call_request "https://export?format=pdf"] |}
  /\ download_file (table_drive [] []) (PyPath.Path_of "out")
       (google_doc "d2" "Notes" txt_links) (running {[ "out" := LocalFS.Dir ]} 2 0)
     = Ok () {| fs := {[ "out" := LocalFS.Dir ]};
                progress_bar := Some {| total := 2; n := 1 |};
                trace := [Log (NoExportLink "Notes")] |}.
Proof.
  split.
  - destruct (C7_export_as_pdf (table_drive [] []) (PyPath.Path_of "out")
                (google_doc "d1" "Report.docx" pdf_links) pdf_links
                (running {[ "out" := LocalFS.Dir ]} 2 0) {| total := 2; n := 0 |})
      as [Hpdf _]; [reflexivity .. |].
    rewrite (Hpdf "https://export?format=pdf" "%PDF" (PyPath.Path_of "out/Report.pdf"));
      first [ reflexivity | discriminate ].
  - destruct (C7_export_as_pdf (table_drive [] []) (PyPath.Path_of "out")
                (google_doc "d2" "Notes" txt_links) txt_links
                (running {[ "out" := LocalFS.Dir ]} 2 0) {| total := 2; n := 0 |})
      as [_ Hnone]; [reflexivity .. |].
    destruct Hnone as [-> _]; reflexivity.
Defined.

(** C7, as stated, fails in its second half: an entry whose export
    references hold no PDF reference, met when a file already exists at
    its display-name path, is skipped with an INFO line; no warning is
    logged. *)
Lemma C7_counterexample :
  download_file (table_drive [] []) (PyPath.Path_of "out")
    (google_doc "d2" "Notes" txt_links)
    (running {[ "out" := LocalFS.Dir; "out/Notes" := LocalFS.File "old" ]} 2 0)
  = Ok () {| fs := {[ "out" := LocalFS.Dir; "out/Notes" := LocalFS.File "old" ]};
             progress_bar := Some {| total := 2; n := 1 |};
             trace := [Log (SkippedExists "Notes")] |}
  /\ existsb is_warning [Log (SkippedExists "Notes")] = false.
Proof. split; vm_compute; reflexivity. Qed.

(** C9: the skip test looks at the display-name path only.  For an entry
    that can only be exported, with nothing at its display-name path and a
    file already at the [.pdf] path, the export is requested again and its
    bytes replace what that file held. *)
Theorem C9_pdf_path_not_checked drive folder_output_path file links link response
    pdf_path old st bar :
  downloadUrl file = None ->
  exportLinks file = Some links ->
  links !! "application/pdf" = Some link ->
  link <> "" ->
  LocalFS.exists_ (fs st) (PyPath.truediv folder_output_path (title file)) = false ->
  PyPath.with_suffix (PyPath.truediv folder_output_path (title file)) ".pdf"
    = Some pdf_path ->
  fs st !! PyPath.str pdf_path = Some (LocalFS.File old) ->
  LocalFS.is_dir (fs st) (PyPath.parent pdf_path) = true ->
  http_request drive link = Some response ->
  progress_bar st = Some bar ->
  exists st',
    download_file drive folder_output_path file st = Ok () st'
    /\ trace st' = Log (Exported (title file))
                   :: Call_open_wb (PyPath.str pdf_path)
                   :: Call_request link :: trace st
    /\ fs st' = <[PyPath.str pdf_path := LocalFS.File response]> (fs st)
    /\ fs st' !! PyPath.str pdf_path = Some (LocalFS.File response).
Proof.
  intros Hu Hx Hl Hne He Hs Hold Hdir Hr Hbar.
  assert (Hw : LocalFS.can_open_wb (fs st) pdf_path = true).
  { unfold LocalFS.can_open_wb. rewrite Hdir, andb_true_r.
    unfold LocalFS.is_dir. rewrite Hold.
    destruct (PyPath.parts pdf_path) eqn:Hp; [| done].
    unfold PyPath.with_suffix in Hs. case_match; [done |].
    injection Hs as <-. simpl in Hp. by destruct (removelast _). }
  eexists. split.
  { eapply download_file_export; eauto using pdf_link_Some.
    unfold LocalFS.write_file. by rewrite Hw. }
  cbn. split; [done |]. split; [done |]. by rewrite lookup_insert_eq.
Qed.

Lemma C9_witness :
  exists st',
    download_file (table_drive [] []) (PyPath.Path_of "out")
      (google_doc "d1" "Report.docx" pdf_links)
      (running {[ "out" := LocalFS.Dir; "out/Report.pdf" := LocalFS.File "old export" ]} 1 0)
    = Ok () st'
    /\ trace st' = [Log (Exported "Report.docx");
                    Call_open_wb "out/Report.pdf";
                    Call_request "https://export?format=pdf"]
    /\ fs st' = <[ "out/Report.pdf" := LocalFS.File "%PDF" ]>
                  {[ "out" := LocalFS.Dir; "out/Report.pdf" := LocalFS.File "old export" ]}
    /\ fs st' !! "out/Report.pdf" = Some (LocalFS.File "%PDF").
Proof.
  destruct (C9_pdf_path_not_checked (table_drive [] []) (PyPath.Path_of "out")
              (google_doc "d1" "Report.docx" pdf_links) pdf_links
              "https://export?format=pdf" "%PDF" (PyPath.Path_of "out/Report.pdf")
              "old export"
              (running {[ "out" := LocalFS.Dir;
                          "out/Report.pdf" := LocalFS.File "old export" ]} 1 0)
              {| total := 1; n := 0 |})
    as (st' & Hrun & Htrace & Hfs & Hpdf);
    [first [ reflexivity | discriminate ] .. |].
  exists st'. repeat split; [exact Hrun | exact Htrace | exact Hfs | exact Hpdf].
Defined.

(* ===================================================================== *)
(** * The mirror directory *)
(* ===================================================================== *)

Section PathFacts.
Import PyStr PyPath.

Lemma join_snoc sep ps x :
  exists pre, join sep (ps ++ [x]) = pre +:+ x.
Proof.
  induction ps as [|p ps [pre IH]].
  - by exists "".
  - destruct ps as [|q ps].
    + exists (p +:+ sep). simpl. by rewrite sapp_assoc.
    + exists (p +:+ sep +:+ pre).
      change (join sep ((p :: q :: ps) ++ [x]))
        with (p +:+ sep +:+ join sep ((q :: ps) ++ [x])).
      by rewrite IH, !sapp_assoc.
Qed.

(** The name of a path is a substring of what [str] prints. *)
Lemma contains_name p : contains (name p) (str p) = true.
Proof.
  unfold name, str. destruct (parts p) as [|q ps] eqn:Hp using rev_ind.
  - simpl. by destruct (root p).
  - clear IHps. rewrite last_last.
    destruct (join_snoc "/" ps q) as [pre Hpre].
    assert (contains q (root p +:+ join "/" (ps ++ [q])) = true) as Hc.
    { rewrite Hpre.
      replace (root p +:+ pre +:+ q) with ((root p +:+ pre) +:+ q +:+ "")
        by (by rewrite sapp_nil_r, sapp_assoc).
      apply contains_app. }
    destruct (root p); [| done].
    by destruct (ps ++ [q]) eqn:E; [destruct ps |].
Qed.

(** The directories [mkdir] leaves behind. *)
Lemma made_keeps (ks : list Path) (m : filesystem) k :
  m !! k = Some LocalFS.Dir ->
  fold_left (fun m q => <[str q := LocalFS.Dir]> m) ks m !! k = Some LocalFS.Dir.
Proof.
  revert m; induction ks as [|q ks IH]; intros m H; [done |].
  simpl. apply IH. destruct (decide (str q = k)) as [->|Hne].
  - by rewrite lookup_insert_eq.
  - by rewrite lookup_insert_ne.
Qed.

Lemma made_lookup (ks : list Path) (m : filesystem) q :
  In q ks ->
  fold_left (fun m q => <[str q := LocalFS.Dir]> m) ks m !! str q = Some LocalFS.Dir.
Proof.
  revert m; induction ks as [|a ks IH]; intros m Hin; [done |].
  simpl. destruct Hin as [->|Hin]; [| by apply IH].
  apply made_keeps, lookup_insert_eq.
Qed.

Lemma made_again (ks : list Path) (m : filesystem) :
  (forall q, In q ks -> m !! str q = Some LocalFS.Dir) ->
  fold_left (fun m q => <[str q := LocalFS.Dir]> m) ks m = m.
Proof.
  revert m; induction ks as [|a ks IH]; intros m H; [done |].
  simpl. rewrite insert_id by (apply H; by left).
  apply IH. intros q Hq. apply H. by right.
Qed.

(** [mkdir(parents=True, exist_ok=True)] on a directory that it has made
    is not an error and changes nothing. *)
Lemma mkdir_idempotent (disk disk' : filesystem) p :
  LocalFS.mkdir disk p = Some disk' -> LocalFS.mkdir disk' p = Some disk'.
Proof.
  unfold LocalFS.mkdir. destruct (existsb _ _); [done |]. intros [= <-].
  set (made := fold_left _ _ _).
  assert (Hdir : forall q, In q (LocalFS.lineage p) -> made !! str q = Some LocalFS.Dir).
  { intros q Hq. by apply made_lookup. }
  destruct (existsb (LocalFS.is_file made) (LocalFS.lineage p)) eqn:E.
  - apply existsb_exists in E as (q & Hq & Hf).
    unfold LocalFS.is_file in Hf. rewrite (Hdir q Hq) in Hf. by destruct (parts q).
  - f_equal. by apply made_again.
Qed.

End PathFacts.

(** C1 (the code departs from the claim): the test is a substring test on
    the printed path.  A folder titled ["Files"] walked into
    [./Downloaded_Files], whose final component is not ["Files"], is
    mirrored into [Downloaded_Files] itself: no component is appended and
    no directory is created. *)
Theorem C1_substring_reuses_directory :
  PyPath.name (PyPath.Path_of "./Downloaded_Files") = "Downloaded_Files"
  /\ folder_output_path_for "Files" (PyPath.Path_of "./Downloaded_Files") (running ∅ 0 0)
     = Ok (PyPath.Path_of "./Downloaded_Files") (running ∅ 0 0).
Proof. split; reflexivity. Qed.

(** The part of C1 that holds: when the final component of the output
    directory is the folder's name, the directory is reused as it is and
    nothing is created. *)
Theorem final_component_reused folder_name output_directory st :
  PyPath.name output_directory = folder_name ->
  folder_output_path_for folder_name output_directory st = Ok output_directory st.
Proof.
  intros <-. unfold folder_output_path_for.
  by rewrite contains_name.
Qed.

Lemma final_component_reused_witness :
  folder_output_path_for "A" (PyPath.Path_of "out/Root/A") (running ∅ 0 0)
  = Ok (PyPath.Path_of "out/Root/A") (running ∅ 0 0).
Proof. apply final_component_reused. reflexivity. Defined.

(** The other part of C1 that holds: when the folder's name does not occur
    in the printed output directory, the name is appended and the
    directory is created with its parents; creating it again is not an
    error and leaves the disk as it is. *)
Theorem absent_name_appended folder_name output_directory st disk' :
  PyStr.contains folder_name (PyPath.str output_directory) = false ->
  LocalFS.mkdir (fs st) (PyPath.truediv output_directory folder_name) = Some disk' ->
  folder_output_path_for folder_name output_directory st
  = Ok (PyPath.truediv output_directory folder_name)
       {| fs := disk'; progress_bar := progress_bar st;
          trace := Call_mkdir (PyPath.str (PyPath.truediv output_directory folder_name))
                   :: trace st |}
  /\ LocalFS.mkdir disk' (PyPath.truediv output_directory folder_name) = Some disk'.
Proof.
  intros Hc Hm. split; [| by eapply mkdir_idempotent].
  unfold folder_output_path_for, mkdir, mbind, M_bind. rewrite Hc. cbn. by rewrite Hm.
Qed.

Lemma absent_name_appended_witness :
  folder_output_path_for "A" (PyPath.Path_of "out/Root") (running ∅ 0 0)
  = Ok (PyPath.Path_of "out/Root/A")
       {| fs := {[ "out" := LocalFS.Dir; "out/Root" := LocalFS.Dir;
                   "out/Root/A" := LocalFS.Dir ]};
          progress_bar := Some {| total := 0; n := 0 |};
          trace := [Call_mkdir "out/Root/A"] |}.
Proof.
  destruct (absent_name_appended "A" (PyPath.Path_of "out/Root") (running ∅ 0 0)
              {[ "out" := LocalFS.Dir; "out/Root" := LocalFS.Dir;
                 "out/Root/A" := LocalFS.Dir ]}) as [H _];
    [vm_compute; reflexivity .. | exact H].
Defined.

(* ===================================================================== *)
(** * The file counter *)
(* ===================================================================== *)

Section Counter.
Variable drive : GoogleDrive.

Lemma for_fold_cons {A X} (body : A -> X -> M A) x l acc st :
  for_fold body (x :: l) acc st
  = match body acc x st with
    | Ok acc' st' => for_fold body l acc' st'
    | Raised st' => Raised st'
    | OutOfFuel => OutOfFuel
    end.
Proof. reflexivity. Qed.

Lemma count_children_tree fuel (children : list rnode) :
  (forall folder_id kids st,
     hierarchy_below drive folder_id kids = true ->
     max_list (List.map depth kids) < fuel ->
     count_files fuel folder_id drive st
     = Ok (sum_list (List.map descendant_files kids)) st) ->
  forall acc st,
    forallb (mirrors drive) children = true ->
    max_list (List.map depth children) < S fuel ->
    for_fold (count_child (fun id => count_files fuel id drive))
             (List.map entry_of children) acc st
    = Ok (acc + sum_list (List.map descendant_files children)) st.
Proof.
  intros IH. induction children as [|t children IHc]; intros acc st Hm Hd.
  - simpl. unfold mret, M_ret. by rewrite Nat.add_0_r.
  - simpl in Hm, Hd. apply andb_true_iff in Hm as [Ht Hm].
    change (List.map entry_of (t :: children))
      with (entry_of t :: List.map entry_of children).
    rewrite for_fold_cons. unfold count_child at 1.
    destruct t as [file | folder kids]; simpl in Ht, Hd |- *.
    + apply negb_true_iff in Ht. rewrite Ht. unfold mret at 1, M_ret at 1.
      rewrite IHc by (done || lia). f_equal. lia.
    + apply andb_true_iff in Ht as [Ht Hk]. apply andb_true_iff in Ht as [Hf Hl].
      rewrite Hf. unfold mbind, M_bind.
      rewrite (IH (entry_id folder) kids st).
      * unfold mret at 1, M_ret at 1. rewrite IHc by (done || lia). f_equal. lia.
      * unfold hierarchy_below. by rewrite Hl, Hk.
      * lia.
Qed.

Lemma count_files_tree fuel : forall folder_id children st,
  hierarchy_below drive folder_id children = true ->
  max_list (List.map depth children) < fuel ->
  count_files fuel folder_id drive st
  = Ok (sum_list (List.map descendant_files children)) st.
Proof.
  induction fuel as [|fuel IH]; intros folder_id children st Hh Hd; [lia |].
  unfold hierarchy_below in Hh. apply andb_true_iff in Hh as [Hl Hm].
  apply bool_decide_eq_true in Hl. simpl. rewrite Hl.
  rewrite (count_children_tree fuel children IH 0 st Hm); [done | lia].
Qed.

End Counter.

(** C6: when the lister answers, at every folder, as a finite tree
    [children] says, the counter started on the root returns, with enough
    fuel for the depth of the tree, the number of file entries of the tree
    at all depths, and it logs nothing. *)
Theorem C6_count_is_descendant_files drive folder_id (children : list rnode) :
  hierarchy_below drive folder_id children = true ->
  exists enough, forall fuel st,
    enough <= fuel ->
    count_files fuel folder_id drive st
    = Ok (sum_list (List.map descendant_files children)) st.
Proof.
  intros Hh. exists (S (max_list (List.map depth children))).
  intros fuel st Hf. apply count_files_tree; [done | lia].
Qed.

Lemma C6_witness :
  exists enough, forall fuel st,
    enough <= fuel -> count_files fuel "R" sample_drive st = Ok 4 st.
Proof.
  apply (C6_count_is_descendant_files sample_drive "R" sample_tree).
  vm_compute. reflexivity.
Defined.

(* ===================================================================== *)
(** * Failures of one folder *)
(* ===================================================================== *)

Section Walker.
Variable drive : GoogleDrive.

Lemma walker_unfold fuel folder_id output_directory :
  download_google_drive_folder (S fuel) folder_id output_directory drive
  = match CreateFile_title drive folder_id with
    | None => log (MetadataFailed folder_id)
    | Some folder_name =>
        _ ← log (ProcessingFolder folder_name);
        folder_output_path ← folder_output_path_for folder_name output_directory;
        match ListFile drive folder_id with
        | None => log (ListFailed folder_id)
        | Some file_list =>
            for_each
              (process_child
                 (fun id out => download_google_drive_folder fuel id out drive)
                 drive folder_output_path)
              file_list
        end
    end.
Proof. reflexivity. Qed.

Lemma walker_metadata_failure fuel folder_id output_directory st :
  CreateFile_title drive folder_id = None ->
  download_google_drive_folder (S fuel) folder_id output_directory drive st
  = Ok () (record (Log (MetadataFailed folder_id)) st).
Proof. intros H. rewrite walker_unfold, H. reflexivity. Qed.

Lemma walker_listing_failure fuel folder_id output_directory folder_name st dir st1 :
  CreateFile_title drive folder_id = Some folder_name ->
  folder_output_path_for folder_name output_directory
    (record (Log (ProcessingFolder folder_name)) st) = Ok dir st1 ->
  ListFile drive folder_id = None ->
  download_google_drive_folder (S fuel) folder_id output_directory drive st
  = Ok () (record (Log (ListFailed folder_id)) st1).
Proof.
  intros Ht Hd Hl. rewrite walker_unfold, Ht, Hl.
  unfold mbind, M_bind. cbn. unfold record in Hd. by rewrite Hd.
Qed.

Lemma count_listing_failure fuel folder_id st :
  ListFile drive folder_id = None ->
  count_files (S fuel) folder_id drive st
  = Ok 0 (record (Log (ListFailed folder_id)) st).
Proof. intros H. simpl. by rewrite H. Qed.

(** A loop goes on with the next element when the body returns. *)
Lemma for_each_cons {X} (body : X -> M unit) x l st :
  for_each body (x :: l) st
  = match body x st with
    | Ok _ st' => for_each body l st'
    | Raised st' => Raised st'
    | OutOfFuel => OutOfFuel
    end.
Proof.
  unfold for_each. simpl. unfold mbind, M_bind.
  by destruct (body x st) as [[] ?| |].
Qed.

Lemma process_child_folder_Ok recurse dir file st st' :
  is_folder file = true ->
  recurse (entry_id file) dir st = Ok () st' ->
  process_child recurse drive dir file st = Ok () st'.
Proof. intros Hf Hr. unfold process_child, try_except. by rewrite Hf, Hr. Qed.

End Walker.

(** The directory step touches neither the bar nor the earlier events. *)
Lemma folder_output_path_for_Ok folder_name output_directory st dir st' :
  folder_output_path_for folder_name output_directory st = Ok dir st' ->
  progress_bar st' = progress_bar st
  /\ exists evs, trace st' = evs ++ trace st /\ has_error evs = false.
Proof.
  unfold folder_output_path_for, mkdir, mbind, M_bind.
  destruct (negb _).
  - destruct (LocalFS.mkdir _ _); [| done]. cbn. intros [= <- <-].
    split; [done |]. by exists [Call_mkdir (PyPath.str (PyPath.truediv output_directory folder_name))].
  - intros [= <- <-]. split; [done |]. by exists [].
Qed.

Lemma folder_output_path_for_Raised folder_name output_directory st st' :
  folder_output_path_for folder_name output_directory st = Raised st' ->
  progress_bar st' = progress_bar st
  /\ exists evs, trace st' = evs ++ trace st /\ has_error evs = false.
Proof.
  unfold folder_output_path_for, mkdir, mbind, M_bind.
  destruct (negb _); [| done].
  destruct (LocalFS.mkdir _ _); [done |]. intros [= <-].
  split; [done |]. by exists [Call_mkdir (PyPath.str (PyPath.truediv output_directory folder_name))].
Qed.

Lemma folder_output_path_for_fuel folder_name output_directory st :
  folder_output_path_for folder_name output_directory st <> OutOfFuel.
Proof.
  unfold folder_output_path_for, mkdir, mbind, M_bind.
  destruct (negb _); [| done]. by destruct (LocalFS.mkdir _ _).
Qed.

(* ===================================================================== *)
(** * Progress accounting *)
(* ===================================================================== *)

Section Progress.
Variable drive : GoogleDrive.

Lemma has_error_app evs1 evs2 :
  has_error (evs1 ++ evs2) = has_error evs1 || has_error evs2.
Proof. apply existsb_app. Qed.

Lemma recorded_app evs1 evs2 st :
  recorded evs2 (recorded evs1 st) = recorded (evs2 ++ evs1) st.
Proof. unfold recorded. cbn. by rewrite <- app_assoc. Qed.

Lemma recorded_nil st : recorded [] st = st.
Proof. by destruct st. Qed.

Lemma run_from_refl st bar : progress_bar st = Some bar -> run_from 0 st st.
Proof.
  intros H. exists [], bar, bar. repeat split; try done; try (intros _; lia).
Qed.

Lemma run_from_trans k1 k2 st1 st2 st3 :
  run_from k1 st1 st2 -> run_from k2 st2 st3 -> run_from (k1 + k2) st1 st3.
Proof.
  intros (evs1 & b1 & b2 & Ht1 & Hb1 & Hb2 & Htot1 & Hn1)
         (evs2 & b2' & b3 & Ht2 & Hb2' & Hb3 & Htot2 & Hn2).
  assert (b2' = b2) as -> by congruence.
  exists (evs2 ++ evs1), b1, b3. rewrite Ht2, Ht1, app_assoc.
  repeat split; try done; [congruence |].
  rewrite has_error_app. intros [H2 H1]%orb_false_iff.
  rewrite Hn2, Hn1 by done. lia.
Qed.

Lemma interrupted_refl st bar : progress_bar st = Some bar -> interrupted st st.
Proof. intros H. by exists [], bar, bar. Qed.

Lemma run_from_interrupted k st st' : run_from k st st' -> interrupted st st'.
Proof. intros (evs & b & b' & ? & ? & ? & ? & _). by exists evs, b, b'. Qed.

Lemma interrupted_trans st1 st2 st3 :
  interrupted st1 st2 -> interrupted st2 st3 -> interrupted st1 st3.
Proof.
  intros (evs1 & b1 & b2 & Ht1 & Hb1 & Hb2 & Htot1)
         (evs2 & b2' & b3 & Ht2 & Hb2' & Hb3 & Htot2).
  assert (b2' = b2) as -> by congruence.
  exists (evs2 ++ evs1), b1, b3. rewrite Ht2, Ht1, app_assoc.
  repeat split; try done. congruence.
Qed.

(** Logging an error lets the run count for any number. *)
Lemma run_from_error k m st st' :
  interrupted st st' ->
  is_error (Log m) = true ->
  run_from k st (record (Log m) st').
Proof.
  intros (evs & b & b' & Ht & Hb & Hb' & Htot) Hm.
  exists (Log m :: evs), b, b'.
  split; [cbn; by rewrite Ht |]. do 3 (split; [done |]). intros He.
  change (has_error (Log m :: evs)) with (is_error (Log m) || has_error evs) in He.
  by rewrite Hm in He.
Qed.

Lemma run_from_events evs st bar :
  progress_bar st = Some bar -> run_from 0 st (recorded evs st).
Proof.
  intros H. exists evs, bar, bar. repeat split; try done; try (intros _; lia).
Qed.

(** The loop body on a file child moves the bar by one, or logs an error. *)
Lemma process_child_file_run recurse dir file st bar :
  is_folder file = false ->
  progress_bar st = Some bar ->
  exists st', process_child recurse drive dir file st = Ok () st' /\ run_from 1 st st'.
Proof.
  intros Hf Hbar.
  destruct (process_child_file recurse drive dir file st bar Hf Hbar)
    as (st' & m & evs & Hrun & Ht & He & Hcase).
  exists st'. split; [done |].
  destruct Hcase as [[Hm Hb] | [-> Hb]].
  - exists (Log m :: evs), bar, (advanced 1 bar). repeat split; try done.
  - exists (Log (ProcessFailed (title file)) :: evs), bar, bar. repeat split; try done.
Qed.

(** The loop body on a folder child, given what the recursive call does. *)
Lemma process_child_folder_run recurse dir file st k :
  is_folder file = true ->
  match recurse (entry_id file) dir st with
  | Ok _ st' => run_from k st st'
  | Raised st' => interrupted st st'
  | OutOfFuel => False
  end ->
  exists st', process_child recurse drive dir file st = Ok () st' /\ run_from k st st'.
Proof.
  intros Hf Hr. unfold process_child, try_except. rewrite Hf.
  destruct (recurse (entry_id file) dir st) as [[] st'|st'|]; [| | done].
  - by exists st'.
  - eexists. split; [reflexivity |]. by apply run_from_error.
Qed.

(** The two loops over the children of a folder, side by side. *)
Lemma children_counted fuel dir (file_list : list RemoteEntry) :
  (forall folder_id out st bar,
     bounded fuel drive folder_id = true ->
     progress_bar st = Some bar ->
     exists k cevs,
       (forall s, count_files fuel folder_id drive s = Ok k (recorded cevs s))
       /\ match download_google_drive_folder fuel folder_id out drive st with
          | Ok _ st' => run_from k st st'
          | Raised st' => interrupted st st'
          | OutOfFuel => False
          end) ->
  forallb (fun file => negb (is_folder file) || bounded fuel drive (entry_id file))
          file_list = true ->
  forall st bar,
    progress_bar st = Some bar ->
    exists k cevs st',
      (forall s acc,
         for_fold (count_child (fun id => count_files fuel id drive)) file_list acc s
         = Ok (acc + k) (recorded cevs s))
      /\ for_each
           (process_child (fun id out => download_google_drive_folder fuel id out drive)
              drive dir) file_list st = Ok () st'
      /\ run_from k st st'.
Proof.
  intros IH. induction file_list as [|file rest IHl]; intros Hb st bar Hbar.
  - exists 0, [], st. split; [| split; [done | by eapply run_from_refl]].
    intros s acc. simpl. unfold mret, M_ret. by rewrite Nat.add_0_r, recorded_nil.
  - simpl in Hb. apply andb_true_iff in Hb as [Hfile Hrest].
    assert (exists k1 cevs1 st1,
      (forall s acc, count_child (fun id => count_files fuel id drive) acc file s
                     = Ok (acc + k1) (recorded cevs1 s))
      /\ process_child (fun id out => download_google_drive_folder fuel id out drive)
           drive dir file st = Ok () st1
      /\ run_from k1 st st1) as (k1 & cevs1 & st1 & Hc1 & Hw1 & Hr1).
    { destruct (is_folder file) eqn:Hf.
      - simpl in Hfile.
        destruct (IH (entry_id file) dir st bar Hfile Hbar) as (k1 & cevs1 & Hc & Hw).
        destruct (process_child_folder_run
                    (fun id out => download_google_drive_folder fuel id out drive)
                    dir file st k1 Hf Hw) as (st1 & Hp & Hr).
        exists k1, cevs1, st1. split; [| done].
        intros s acc. unfold count_child. rewrite Hf. unfold mbind, M_bind.
        by rewrite Hc.
      - destruct (process_child_file_run
                    (fun id out => download_google_drive_folder fuel id out drive)
                    dir file st bar Hf Hbar) as (st1 & Hp & Hr).
        exists 1, [], st1. split; [| done].
        intros s acc. unfold count_child. rewrite Hf. by rewrite recorded_nil. }
    destruct Hr1 as (evs1 & b & b1 & Ht1 & Hb0 & Hb1 & Htot1 & Hn1).
    destruct (IHl Hrest st1 b1 Hb1) as (k2 & cevs2 & st2 & Hc2 & Hw2 & Hr2).
    exists (k1 + k2), (cevs2 ++ cevs1), st2. split; [| split].
    + intros s acc. rewrite for_fold_cons, Hc1, Hc2, recorded_app. f_equal. lia.
    + by rewrite for_each_cons, Hw1.
    + eapply run_from_trans; [| exact Hr2]. by exists evs1, b, b1.
Qed.

(** The counter and the walker on one folder, side by side: with fuel for
    the depth of the hierarchy both return, and the walker moves the bar
    by what the counter returns unless it logs an error. *)
Lemma walker_counted fuel : forall folder_id out st bar,
  bounded fuel drive folder_id = true ->
  progress_bar st = Some bar ->
  exists k cevs,
    (forall s, count_files fuel folder_id drive s = Ok k (recorded cevs s))
    /\ match download_google_drive_folder fuel folder_id out drive st with
       | Ok _ st' => run_from k st st'
       | Raised st' => interrupted st st'
       | OutOfFuel => False
       end.
Proof.
  induction fuel as [|fuel IH]; intros folder_id out st bar Hb Hbar; [done |].
  simpl in Hb. rewrite walker_unfold.
  assert (Hlog : forall m, interrupted st (record (Log m) st)).
  { intros m. by exists [Log m], bar, bar. }
  destruct (ListFile drive folder_id) as [file_list|] eqn:Hl.
  - (* the listing answers *)
    destruct (CreateFile_title drive folder_id) as [folder_name|] eqn:Ht.
    + unfold mbind, M_bind. cbn [log emit].
      set (st0 := {| fs := fs st; progress_bar := progress_bar st;
                     trace := Log (ProcessingFolder folder_name) :: trace st |}).
      destruct (folder_output_path_for folder_name out st0) as [dir st1|st1|] eqn:Hd.
      * destruct (folder_output_path_for_Ok _ _ _ _ _ Hd) as (Hb1 & evs1 & Ht1 & He1).
        assert (Hbar1 : progress_bar st1 = Some bar) by (by rewrite Hb1).
        destruct (children_counted fuel dir file_list IH Hb st1 bar Hbar1)
          as (k & cevs & st2 & Hc & Hw & Hr).
        exists k, cevs. split.
        -- intros s. simpl. rewrite Hl. apply (Hc s 0).
        -- rewrite Hw.
           replace k with (0 + k) by lia. eapply run_from_trans; [| exact Hr].
           exists (evs1 ++ [Log (ProcessingFolder folder_name)]), bar, bar.
           rewrite Ht1. subst st0. cbn. rewrite <- app_assoc.
           repeat split; try done; try (intros _; lia).
      * destruct (folder_output_path_for_Raised _ _ _ _ Hd) as (Hb1 & evs1 & Ht1 & He1).
        destruct (children_counted fuel out file_list IH Hb st bar Hbar)
          as (k & cevs & _ & Hc & _ & _).
        exists k, cevs. split.
        -- intros s. simpl. rewrite Hl. apply (Hc s 0).
        -- exists (evs1 ++ [Log (ProcessingFolder folder_name)]), bar, bar.
           rewrite Ht1, Hb1. subst st0. cbn. by rewrite <- app_assoc.
      * by apply folder_output_path_for_fuel in Hd.
    + destruct (children_counted fuel out file_list IH Hb st bar Hbar)
        as (k & cevs & _ & Hc & _ & _).
      exists k, cevs. split.
      * intros s. simpl. rewrite Hl. apply (Hc s 0).
      * change (log (MetadataFailed folder_id) st)
          with (Ok () (record (Log (MetadataFailed folder_id)) st)).
        apply run_from_error; [by eapply interrupted_refl | done].
  - (* the listing raises: the counter answers 0 and both log the error *)
    exists 0, [Log (ListFailed folder_id)]. split.
    + intros s. simpl. by rewrite Hl.
    + destruct (CreateFile_title drive folder_id) as [folder_name|] eqn:Ht.
      * unfold mbind, M_bind. cbn [log emit].
        set (st0 := {| fs := fs st; progress_bar := progress_bar st;
                       trace := Log (ProcessingFolder folder_name) :: trace st |}).
        assert (H0 : interrupted st st0) by apply Hlog.
        destruct (folder_output_path_for folder_name out st0) as [dir st1|st1|] eqn:Hd.
        -- destruct (folder_output_path_for_Ok _ _ _ _ _ Hd) as (Hb1 & evs1 & Ht1 & He1).
           change (log (ListFailed folder_id) st1)
             with (Ok () (record (Log (ListFailed folder_id)) st1)).
           apply run_from_error; [| done].
           eapply interrupted_trans; [exact H0 |].
           exists evs1, bar, bar. by rewrite Hb1.
        -- destruct (folder_output_path_for_Raised _ _ _ _ Hd) as (Hb1 & evs1 & Ht1 & He1).
           eapply interrupted_trans; [exact H0 |].
           exists evs1, bar, bar. by rewrite Hb1.
        -- by apply folder_output_path_for_fuel in Hd.
      * change (log (MetadataFailed folder_id) st)
          with (Ok () (record (Log (MetadataFailed folder_id)) st)).
        apply run_from_error; [by eapply interrupted_refl | done].
Qed.

End Progress.

Section Orchestrator.
Variable drive : GoogleDrive.

(** The two loops over the root folders, side by side. *)
Lemma roots_counted fuel output_directory_path (folder_ids : list string) :
  forallb (bounded fuel drive) folder_ids = true ->
  forall st bar,
    progress_bar st = Some bar ->
    exists k cevs,
      (forall s acc,
         for_fold (fun acc folder_id => c ← count_files fuel folder_id drive; mret (acc + c))
                  folder_ids acc s
         = Ok (acc + k) (recorded cevs s))
      /\ match download_all fuel drive output_directory_path folder_ids st with
         | Ok _ st' => run_from k st st'
         | Raised st' => interrupted st st'
         | OutOfFuel => False
         end.
Proof.
  induction folder_ids as [|folder_id rest IH]; intros Hb st bar Hbar.
  - exists 0, []. split.
    + intros s acc. simpl. unfold mret, M_ret. by rewrite Nat.add_0_r, recorded_nil.
    + by eapply run_from_refl.
  - simpl in Hb. apply andb_true_iff in Hb as [Hid Hrest].
    destruct (walker_counted drive fuel folder_id (PyPath.Path_of output_directory_path)
                st bar Hid Hbar) as (k1 & cevs1 & Hc1 & Hw1).
    unfold download_all. rewrite for_each_cons. fold (download_all fuel drive output_directory_path rest).
    destruct (download_google_drive_folder fuel folder_id _ drive st)
      as [[] st1|st1|]; [| | done].
    + destruct Hw1 as (evs1 & b & b1 & Ht1 & Hb0 & Hb1 & Htot1 & Hn1).
      destruct (IH Hrest st1 b1 Hb1) as (k2 & cevs2 & Hc2 & Hw2).
      exists (k1 + k2), (cevs2 ++ cevs1). split.
      * intros s acc. rewrite for_fold_cons. unfold mbind at 1, M_bind at 1.
        rewrite Hc1. unfold mret at 1, M_ret at 1.
        rewrite Hc2, recorded_app. f_equal. lia.
      * assert (Hr1 : run_from k1 st st1) by (by exists evs1, b, b1).
        destruct (download_all fuel drive output_directory_path rest st1) as [[] st2|st2|].
        -- by eapply run_from_trans.
        -- eapply interrupted_trans; [by eapply run_from_interrupted | done].
        -- done.
    + destruct (IH Hrest st bar Hbar) as (k2 & cevs2 & Hc2 & _).
      exists (k1 + k2), (cevs2 ++ cevs1). split; [| done].
      intros s acc. rewrite for_fold_cons. unfold mbind at 1, M_bind at 1.
      rewrite Hc1. unfold mret at 1, M_ret at 1.
      rewrite Hc2, recorded_app. f_equal. lia.
Qed.

End Orchestrator.

(** C5, as amended: take root folders under which the remote hierarchy is
    at most [fuel] folders deep.  The run never lacks fuel.  If it
    completes and its log holds no error line, which is the case exactly
    when every listing, metadata request, fetch, directory creation and
    file write succeeded, the bar ends with its counter equal to its
    total, and that total is what the counting pass returns for these
    roots. *)
Theorem C5_counter_reaches_total fuel drive links_file_path output_directory_path
    st folder_ids st1 :
  extract_folder_ids links_file_path (record (Log AuthenticationSuccessful) st)
    = Ok folder_ids st1 ->
  forallb (bounded fuel drive) folder_ids = true ->
  match google_drive_bulk_download fuel (Some drive) links_file_path
          output_directory_path st with
  | Ok _ st' =>
      has_error (trace st') = false ->
      exists bar cevs,
        progress_bar st' = Some bar
        /\ n bar = total bar
        /\ forall s, count_all fuel drive folder_ids s = Ok (total bar) (recorded cevs s)
  | Raised _ => True
  | OutOfFuel => False
  end.
Proof.
  intros Hx Hb. unfold google_drive_bulk_download.
  unfold mbind at 1, M_bind at 1.
  change (authenticate_drive (Some drive) st)
    with (Ok drive (record (Log AuthenticationSuccessful) st)).
  unfold mbind at 1, M_bind at 1. rewrite Hx.
  destruct folder_ids as [|folder_id rest]; [by cbn |].
  set (folder_ids := folder_id :: rest) in *.
  unfold mbind at 1, M_bind at 1. cbn [log emit].
  set (st2 := {| fs := fs st1; progress_bar := progress_bar st1;
                 trace := Log CountingAllFiles :: trace st1 |}).
  destruct (roots_counted drive fuel output_directory_path folder_ids Hb
              {| fs := fs st1; progress_bar := Some {| total := 0; n := 0 |}; trace := [] |}
              {| total := 0; n := 0 |} eq_refl) as (k & cevs & Hc & _).
  assert (Hcount : count_all fuel drive folder_ids st2 = Ok (0 + k) (recorded cevs st2))
    by apply Hc.
  rewrite (bind_Ok _ _ _ _ _ Hcount).
  rewrite (bind_Ok _ _ _ _ _ (log_Ok _ _)).
  erewrite bind_Ok by reflexivity.
  set (st3 := {| fs := _; progress_bar := Some _; trace := _ |}).
  destruct (roots_counted drive fuel output_directory_path folder_ids Hb
              st3 {| total := 0 + k; n := 0 |} eq_refl) as (k' & cevs' & Hc' & Hw).
  assert (k' = k) as ->.
  { specialize (Hc st2 0). specialize (Hc' st2 0). rewrite Hc in Hc'.
    injection Hc' as Hk _. lia. }
  destruct (download_all fuel drive output_directory_path folder_ids st3)
    as [[] st'|st'|]; [| done | done].
  destruct Hw as (evs & b & b' & Ht & Hb0 & Hb' & Htot & Hn).
  injection Hb0 as <-. intros He.
  rewrite Ht, has_error_app in He. apply orb_false_iff in He as [He _].
  exists b', cevs. split; [done |]. cbn in Htot, Hn. split; [rewrite Hn by done; lia |].
  intros s. unfold count_all. rewrite (Hc s 0). by rewrite Htot.
Qed.

Lemma C5_witness :
  exists st' bar,
    google_drive_bulk_download 3 (Some sample_drive) "links.txt" "out"
      (start (sharing_link "R")) = Ok () st'
    /\ progress_bar st' = Some bar
    /\ n bar = total bar
    /\ total bar = 4.
Proof.
  assert (Hx : extract_folder_ids "links.txt"
                 (record (Log AuthenticationSuccessful) (start (sharing_link "R")))
               = Ok ["R"] (record (Log AuthenticationSuccessful) (start (sharing_link "R"))))
    by (vm_compute; reflexivity).
  assert (Hb : forallb (bounded 3 sample_drive) ["R"] = true)
    by (vm_compute; reflexivity).
  pose proof (C5_counter_reaches_total 3 sample_drive "links.txt" "out"
                (start (sharing_link "R")) ["R"] _ Hx Hb) as H.
  eassert (Hrun : google_drive_bulk_download 3 (Some sample_drive) "links.txt" "out"
                    (start (sharing_link "R")) = Ok () _) by (vm_compute; reflexivity).
  rewrite Hrun in H.
  match type of H with
  | ?P -> _ => assert (He : P) by (vm_compute; reflexivity); specialize (H He)
  end.
  destruct H as (bar & cevs & Hbar & Hn & Htotal).
  eexists _, bar. split; [exact Hrun |]. split; [exact Hbar |]. split; [exact Hn |].
  assert (Hc : count_all 3 sample_drive ["R"] (start "") = Ok 4 (start ""))
    by (vm_compute; reflexivity).
  specialize (Htotal (start "")). rewrite Hc in Htotal. by injection Htotal as <- _.
Defined.

(** C5, as stated, fails: here every listing, metadata request and fetch
    succeeds, the count is 2, and the bar ends at 1 of 2.  The file ["x"]
    is written first; creating the directory of the folder ["x"] then
    raises, the parent logs the failure, and the file inside that folder
    is never processed. *)
Lemma C5_counterexample :
  (forall folder_id, is_Some (ListFile clash_drive folder_id)
                     /\ is_Some (CreateFile_title clash_drive folder_id)
                     /\ is_Some (FetchContent clash_drive folder_id)
                     /\ is_Some (http_request clash_drive folder_id))
  /\ count_all 3 clash_drive ["R"] (start (sharing_link "R"))
     = Ok 2 (start (sharing_link "R"))
  /\ exists st',
       google_drive_bulk_download 3 (Some clash_drive) "links.txt" "out"
         (start (sharing_link "R")) = Ok () st'
       /\ progress_bar st' = Some {| total := 2; n := 1 |}
       /\ trace st'
          = [Log (ProcessFailed "x"); Call_mkdir "out/Root/x"; Log (ProcessingFolder "x");
             Log (Downloaded "x" "out/Root/x"); Call_open_wb "out/Root/x";
             Call_GetContentFile "f1" "out/Root/x";
             Call_mkdir "out/Root"; Log (ProcessingFolder "Root");
             Log (TotalFiles 2); Log CountingAllFiles; Log AuthenticationSuccessful].
Proof.
  split; [intros folder_id; repeat split; eexists; reflexivity |].
  split; [vm_compute; reflexivity |].
  eexists. split; [vm_compute; reflexivity |]. split; vm_compute; reflexivity.
Qed.

(* ===================================================================== *)
(** * Running the script again *)
(* ===================================================================== *)

(** C2 (the code departs from the claim): a folder with one Google
    document is mirrored by a first run that logs no error; the document
    is written as [Report.pdf].  The second run, on the disk the first one
    left, looks for [Report], does not find it, requests the export again
    and writes the file again. *)
Theorem C2_export_fetched_again :
  exists st1 st2,
    google_drive_bulk_download 2 (Some doc_drive) "links.txt" "out"
      (start (sharing_link "R")) = Ok () st1
    /\ has_error (trace st1) = false
    /\ fs st1 !! "out/Root/Report.pdf" = Some (LocalFS.File "%PDF")
    /\ fs st1 !! "out/Root/Report" = None
    /\ google_drive_bulk_download 2 (Some doc_drive) "links.txt" "out" (rerun st1)
       = Ok () st2
    /\ List.filter is_fetch (trace st2) = [Call_request "https://export?format=pdf"]
    /\ List.filter is_write (trace st2) = [Call_open_wb "out/Root/Report.pdf"]
    /\ progress_bar st2 = Some {| total := 1; n := 1 |}.
Proof.
  eexists _, _. split; [vm_compute; reflexivity |].
  do 3 (split; [vm_compute; reflexivity |]).
  split; [vm_compute; reflexivity |].
  repeat split; vm_compute; reflexivity.
Qed.

(* ===================================================================== *)
(** * Further properties of the script *)
(* ===================================================================== *)

(** ** The link extractor on whole files *)

(** On a line whose first ["/folders/"] is followed by an identifier and
    a ["?"], the identifier (free of ["?"] and of ["/folders/"]) is what
    the extractor returns, whatever follows the ["?"]. *)
Theorem folder_id_before_query pre fid rest :
  PyStr.contains "/folders/" (pre +:+ "/folders") = false ->
  PyStr.contains "/folders/" fid = false ->
  PyStr.contains "?" fid = false ->
  folder_id_of_line (pre +:+ "/folders/" +:+ fid +:+ "?" +:+ rest) = Some fid.
Proof. apply folder_id_query. Qed.

Lemma folder_id_before_query_witness :
  folder_id_of_line
    ("https://drive.google.com/drive" +:+ "/folders/" +:+ "1AbC_d-9" +:+ "?"
     +:+ ("usp=sharing" +:+ PyStr.LF))
  = Some "1AbC_d-9".
Proof. apply folder_id_before_query; reflexivity. Defined.

(** The loop over the lines appends one identifier per line that holds
    the marker, in the order of the lines, and never logs. *)
Lemma extract_lines lines : forall folder_ids st,
  for_fold extract_line lines folder_ids st
  = Ok (folder_ids ++ List.map id_on_line (List.filter (PyStr.contains marker) lines)) st.
Proof.
  induction lines as [|line lines IH]; intros folder_ids st.
  - simpl. by rewrite app_nil_r.
  - rewrite for_fold_cons. cbn [List.filter].
    destruct (PyStr.contains marker line) eqn:Hm.
    + destruct (extract_line_marker folder_ids line st Hm) as (folder_id & Hid & ->).
      rewrite IH, <- app_assoc. cbn [List.map]. unfold id_on_line at 2.
      by rewrite Hid.
    + unfold extract_line. rewrite Hm. unfold mret at 1, M_ret at 1. apply IH.
Qed.

Lemma extract_folder_ids_one_per_marker_line_aux links_file_path content text st :
  LocalFS.open_r (fs st) links_file_path = LocalFS.Opened content ->
  PyStr.decode content = Some text ->
  extract_folder_ids links_file_path st
  = Ok (List.map id_on_line
          (List.filter (PyStr.contains marker)
             (PyStr.readlines (PyStr.universal_newlines text)))) st.
Proof.
  intros Ho Hd. unfold extract_folder_ids. rewrite Ho, Hd. apply extract_lines.
Qed.

(** [extract_folder_ids] on a links file that opens and decodes: the
    lines are those of the text with ["\r\n"] and ["\r"] read as line
    feeds; the result is one identifier per line holding the marker, in
    file order and with duplicates; nothing is logged and the state is
    unchanged. *)
Theorem extract_folder_ids_one_per_marker_line links_file_path content text st :
  LocalFS.open_r (fs st) links_file_path = LocalFS.Opened content ->
  PyStr.decode content = Some text ->
  extract_folder_ids links_file_path st
  = Ok (List.map id_on_line
          (List.filter (PyStr.contains marker)
             (PyStr.readlines (PyStr.universal_newlines text)))) st.
Proof. apply extract_folder_ids_one_per_marker_line_aux. Qed.

Lemma extract_folder_ids_one_per_marker_line_witness :
  extract_folder_ids "./links.txt"
    (start (sharing_link "A" +:+ "# my folders" +:+ PyStr.CR +:+ PyStr.LF
            +:+ sharing_link "B" +:+ "https://drive.google.com/drive/folders/C?x"
            +:+ PyStr.CR +:+ sharing_link "A"))
  = Ok ["A"; "B"; "C"; "A"]
       (start (sharing_link "A" +:+ "# my folders" +:+ PyStr.CR +:+ PyStr.LF
               +:+ sharing_link "B" +:+ "https://drive.google.com/drive/folders/C?x"
               +:+ PyStr.CR +:+ sharing_link "A")).
Proof.
  rewrite (extract_folder_ids_one_per_marker_line "./links.txt"
             (sharing_link "A" +:+ "# my folders" +:+ PyStr.CR +:+ PyStr.LF
              +:+ sharing_link "B" +:+ "https://drive.google.com/drive/folders/C?x"
              +:+ PyStr.CR +:+ sharing_link "A")
             (sharing_link "A" +:+ "# my folders" +:+ PyStr.CR +:+ PyStr.LF
              +:+ sharing_link "B" +:+ "https://drive.google.com/drive/folders/C?x"
              +:+ PyStr.CR +:+ sharing_link "A"));
    vm_compute; reflexivity.
Defined.

(** ** The orchestrator without targets *)

(** When the links file is missing, or holds no line with the marker, the
    run logs that no identifier was found and returns: no listing, no
    fetch and no write is attempted, the script leaves the disk as it was
    and creates no progress bar. *)
Theorem no_folder_ids_aborts fuel drive links_file_path output_directory_path st :
  LocalFS.open_r (fs st) links_file_path = LocalFS.NoSuchFile
  \/ (exists content text,
        LocalFS.open_r (fs st) links_file_path = LocalFS.Opened content
        /\ PyStr.decode content = Some text
        /\ List.filter (PyStr.contains marker)
             (PyStr.readlines (PyStr.universal_newlines text)) = []) ->
  exists evs,
    google_drive_bulk_download fuel (Some drive) links_file_path output_directory_path st
    = Ok () (recorded (Log NoValidFolderIds :: evs) st)
    /\ existsb is_call evs = false.
Proof.
  intros H. unfold google_drive_bulk_download.
  unfold mbind at 1, M_bind at 1.
  change (authenticate_drive (Some drive) st)
    with (Ok drive (record (Log AuthenticationSuccessful) st)).
  unfold mbind at 1, M_bind at 1.
  destruct H as [Hmiss | (content & text & Hfile & Hdec & Hnone)].
  - unfold extract_folder_ids. cbn [fs record]. rewrite Hmiss.
    by exists [Log (LinksFileNotFound links_file_path); Log AuthenticationSuccessful].
  - rewrite (extract_folder_ids_one_per_marker_line_aux links_file_path content text
               (record (Log AuthenticationSuccessful) st) Hfile Hdec), Hnone.
    by exists [Log AuthenticationSuccessful].
Qed.

Lemma no_folder_ids_aborts_witness :
  exists evs,
    google_drive_bulk_download 3 (Some sample_drive) "links.txt" "out"
      (start ("no link here" +:+ PyStr.LF))
    = Ok () (recorded (Log NoValidFolderIds :: evs) (start ("no link here" +:+ PyStr.LF)))
    /\ existsb is_call evs = false.
Proof.
  apply no_folder_ids_aborts. right.
  exists ("no link here" +:+ PyStr.LF), ("no link here" +:+ PyStr.LF).
  repeat split; vm_compute; reflexivity.
Defined.

(** A failed authentication ends the run at once: the failure is logged
    as an error and raised again, and nothing catches it, so the links
    file is not read and nothing is listed, counted or fetched. *)
Theorem authentication_failure_aborts fuel links_file_path output_directory_path st :
  google_drive_bulk_download fuel None links_file_path output_directory_path st
  = Raised (record (Log AuthenticationFailed) st)
  /\ is_error (Log AuthenticationFailed) = true.
Proof. done. Qed.

(** ** Direct downloads *)

(** A file entry with a direct-download reference and nothing at its
    target path is fetched once and written at exactly
    [folder_output_path / title]; its export references, if it has any,
    are not used. *)
Theorem direct_download_written drive folder_output_path file url content st bar :
  downloadUrl file = Some url ->
  LocalFS.exists_ (fs st) (PyPath.truediv folder_output_path (title file)) = false ->
  FetchContent drive (entry_id file) = Some content ->
  LocalFS.can_open_wb (fs st) (PyPath.truediv folder_output_path (title file)) = true ->
  progress_bar st = Some bar ->
  download_file drive folder_output_path file st
  = Ok () {| fs := <[PyPath.str (PyPath.truediv folder_output_path (title file))
                     := LocalFS.File content]> (fs st);
             progress_bar := Some (advanced 1 bar);
             trace := Log (Downloaded (title file)
                             (PyPath.str (PyPath.truediv folder_output_path (title file))))
                      :: Call_open_wb (PyPath.str (PyPath.truediv folder_output_path (title file)))
                      :: Call_GetContentFile (entry_id file)
                           (PyPath.str (PyPath.truediv folder_output_path (title file)))
                      :: trace st |}.
Proof.
  intros Hu He Hc Hw Hbar.
  erewrite download_file_direct; eauto.
  unfold LocalFS.write_file. by rewrite Hw.
Qed.

Lemma direct_download_written_witness :
  download_file (table_drive [] []) (PyPath.Path_of "out")
    {| entry_id := "f9"; title := "both.txt"; mimeType := "text/plain";
       downloadUrl := Some "https://content"; exportLinks := Some pdf_links |}
    (running {[ "out" := LocalFS.Dir ]} 1 0)
  = Ok () {| fs := {[ "out" := LocalFS.Dir; "out/both.txt" := LocalFS.File "content" ]};
             progress_bar := Some {| total := 1; n := 1 |};
             trace := [Log (Downloaded "both.txt" "out/both.txt");
                       Call_open_wb "out/both.txt";
                       Call_GetContentFile "f9" "out/both.txt"] |}.
Proof.
  rewrite (direct_download_written (table_drive [] []) (PyPath.Path_of "out") _
             "https://content" "content" _ {| total := 1; n := 0 |});
    vm_compute; reflexivity.
Defined.

(** ** Exceptions out of the walker *)

Lemma process_child_not_Raised recurse drive dir file st st' :
  process_child recurse drive dir file st <> Raised st'.
Proof.
  unfold process_child, try_except.
  by destruct (if is_folder file then _ else _) as [[] ?|?|].
Qed.

Lemma children_not_Raised recurse drive dir (file_list : list RemoteEntry) :
  forall st st', for_each (process_child recurse drive dir) file_list st <> Raised st'.
Proof.
  induction file_list as [|file rest IH]; intros st st'; [done |].
  rewrite for_each_cons.
  destruct (process_child recurse drive dir file st) as [[] st1|st1|] eqn:E; [apply IH | | done].
  by apply process_child_not_Raised in E.
Qed.

Lemma folder_output_path_for_Raised_inv folder_name output_directory st st' :
  folder_output_path_for folder_name output_directory st = Raised st' ->
  PyStr.contains folder_name (PyPath.str output_directory) = false
  /\ LocalFS.mkdir (fs st) (PyPath.truediv output_directory folder_name) = None
  /\ st' = record (Call_mkdir (PyPath.str (PyPath.truediv output_directory folder_name))) st.
Proof.
  unfold folder_output_path_for, mkdir, mbind, M_bind.
  destruct (PyStr.contains folder_name (PyPath.str output_directory)); [done |].
  cbn [negb]. destruct (LocalFS.mkdir (fs st) _); [done |].
  intros [= <-]. by repeat split.
Qed.

(** The only exception that leaves [download_google_drive_folder] is the
    one of the [mkdir] of line 106, which stands outside every [try]:
    metadata and listing failures are caught, and so is whatever the
    children raise, the [mkdir] of a nested folder included. *)
Theorem only_own_mkdir_escapes fuel folder_id output_directory drive st st' :
  download_google_drive_folder fuel folder_id output_directory drive st = Raised st' ->
  exists folder_name,
    CreateFile_title drive folder_id = Some folder_name
    /\ PyStr.contains folder_name (PyPath.str output_directory) = false
    /\ LocalFS.mkdir (fs st) (PyPath.truediv output_directory folder_name) = None
    /\ st' = recorded [Call_mkdir (PyPath.str (PyPath.truediv output_directory folder_name));
                       Log (ProcessingFolder folder_name)] st.
Proof.
  destruct fuel as [|fuel]; [done |]. rewrite walker_unfold.
  destruct (CreateFile_title drive folder_id) as [folder_name|]; [| done].
  intros H. exists folder_name. split; [done |].
  unfold mbind at 1, M_bind at 1 in H.
  change (log (ProcessingFolder folder_name) st)
    with (Ok () (record (Log (ProcessingFolder folder_name)) st)) in H.
  unfold mbind at 1, M_bind at 1 in H.
  destruct (folder_output_path_for folder_name output_directory
              (record (Log (ProcessingFolder folder_name)) st)) as [dir st1|st1|] eqn:Hd.
  - exfalso. destruct (ListFile drive folder_id); [| done].
    by apply children_not_Raised in H.
  - injection H as <-.
    apply folder_output_path_for_Raised_inv in Hd as (Hc & Hm & ->). by repeat split.
  - done.
Qed.

Lemma only_own_mkdir_escapes_witness :
  exists folder_name,
    CreateFile_title sample_drive "R" = Some folder_name
    /\ PyStr.contains folder_name (PyPath.str (PyPath.Path_of "out")) = false
    /\ LocalFS.mkdir (fs (running {[ "out" := LocalFS.File "" ]} 4 0))
         (PyPath.truediv (PyPath.Path_of "out") folder_name) = None
    /\ recorded [Call_mkdir "out/Root"; Log (ProcessingFolder "Root")]
         (running {[ "out" := LocalFS.File "" ]} 4 0)
       = recorded [Call_mkdir (PyPath.str (PyPath.truediv (PyPath.Path_of "out") folder_name));
                   Log (ProcessingFolder folder_name)]
           (running {[ "out" := LocalFS.File "" ]} 4 0).
Proof.
  apply (only_own_mkdir_escapes 3 "R" (PyPath.Path_of "out") sample_drive).
  vm_compute. reflexivity.
Defined.

(** ** The counter never fails *)

(** With fuel for the depth of the hierarchy, [count_files] returns
    whatever the lister does: it never raises, its result does not depend
    on the state it runs in, and it leaves the disk and the progress bar
    alone (it only logs). *)
Theorem count_files_always_returns fuel folder_id drive :
  bounded fuel drive folder_id = true ->
  exists count evs,
    forall st, count_files fuel folder_id drive st = Ok count (recorded evs st).
Proof.
  intros Hb.
  destruct (walker_counted drive fuel folder_id (PyPath.Path_of ".")
              (running ∅ 0 0) {| total := 0; n := 0 |} Hb eq_refl)
    as (count & evs & Hc & _).
  by exists count, evs.
Qed.

Lemma count_files_always_returns_witness :
  exists count evs,
    forall st, count_files 3 "R" (failing [] ["B"] sample_drive) st
               = Ok count (recorded evs st).
Proof.
  apply count_files_always_returns. vm_compute. reflexivity.
Defined.

(** ** Titles that are absolute paths *)

Lemma splitroot_absolute key :
  PyStr.startswith "/" key = true -> exists c r, PyPath.splitroot key = String c r.
Proof.
  destruct key as [|c key]; [done |]. cbn [PyStr.startswith].
  destruct (Ascii.eqb_spec "/" c) as [<-|]; [intros _ | done].
  destruct key as [|c2 key]; [by eexists _, _ |].
  destruct (ascii_dec c2 "/") as [->|H2].
  - destruct key as [|c3 key]; [by eexists _, _ |].
    destruct (ascii_dec c3 "/") as [->|H3]; [by eexists _, _ |].
    destruct c3 as [[] [] [] [] [] [] [] []]; try done; by eexists _, _.
  - destruct c2 as [[] [] [] [] [] [] [] []]; try done; by eexists _, _.
Qed.

Lemma truediv_absolute dir key :
  PyStr.startswith "/" key = true -> PyPath.truediv dir key = PyPath.Path_of key.
Proof.
  intros H. destruct (splitroot_absolute key H) as (c & r & Hr).
  unfold PyPath.truediv. cbn [PyPath.root PyPath.Path_of]. by rewrite Hr.
Qed.

(** The title of a remote file is joined to the local directory as
    [pathlib] joins: a title that starts with a slash replaces the
    directory.  For such an entry the per-file block tests, fetches and
    writes at the title itself, and does the same whatever the output
    directory is. *)
Theorem absolute_title_leaves_output_directory drive folder_output_path file :
  PyStr.startswith "/" (title file) = true ->
  PyPath.truediv folder_output_path (title file) = PyPath.Path_of (title file)
  /\ forall other st,
       download_file drive folder_output_path file st = download_file drive other file st.
Proof.
  intros H. split; [by apply truediv_absolute |].
  intros other st. unfold download_file. by rewrite !truediv_absolute.
Qed.

Lemma absolute_title_leaves_output_directory_witness :
  PyPath.truediv (PyPath.Path_of "downloads") (title (plain_file "f1" "/tmp/x"))
  = PyPath.Path_of (title (plain_file "f1" "/tmp/x"))
  /\ forall other st,
       download_file sample_drive (PyPath.Path_of "downloads") (plain_file "f1" "/tmp/x") st
       = download_file sample_drive other (plain_file "f1" "/tmp/x") st.
Proof. apply absolute_title_leaves_output_directory. reflexivity. Defined.

(* ===================================================================== *)
(** * Frame properties of the walker *)
(* ===================================================================== *)

(** ** What every step preserves *)

(** A relation between the state before and the state after that is
    reflexive and transitive, and that the four primitive effects respect,
    is respected by the whole walker. *)
Section Frame.
Variable R : state -> state -> Prop.
Hypothesis R_refl : forall st, R st st.
Hypothesis R_trans : forall st1 st2 st3, R st1 st2 -> R st2 st3 -> R st1 st3.
Hypothesis R_emit : forall e, preserves R (emit e).
Hypothesis R_update : forall k, preserves R (update k).
Hypothesis R_mkdir : forall p, preserves R (mkdir p).
Hypothesis R_write : forall p data, preserves R (open_wb_write p data).

Lemma preserves_ret {A} (a : A) : preserves R (mret a).
Proof. intros st. apply R_refl. Qed.

Lemma preserves_raise {A} : preserves R (@raise A).
Proof. intros st. apply R_refl. Qed.

Lemma preserves_bind {A B} (m : M A) (f : A -> M B) :
  preserves R m -> (forall a, preserves R (f a)) -> preserves R (m ≫= f).
Proof.
  intros Hm Hf st. specialize (Hm st). unfold mbind, M_bind.
  destruct (m st) as [a st1|st1|]; simpl in *; [| done | done].
  specialize (Hf a st1). destruct (f a st1); simpl in *; eauto.
Qed.

Lemma preserves_get {A} (o : option A) : preserves R (get o).
Proof. destruct o; [apply preserves_ret | apply preserves_raise]. Qed.

Lemma preserves_try {A} (body handler : M A) :
  preserves R body -> preserves R handler -> preserves R (try_except body handler).
Proof.
  intros Hb Hh st. specialize (Hb st). unfold try_except.
  destruct (body st) as [a st1|st1|]; simpl in *; [done | | done].
  specialize (Hh st1). destruct (handler st1); simpl in *; eauto.
Qed.

Lemma preserves_for_fold {A X} (body : A -> X -> M A) (l : list X) :
  (forall acc x, preserves R (body acc x)) ->
  forall acc, preserves R (for_fold body l acc).
Proof.
  intros Hb. induction l as [|x l IH]; intros acc.
  - apply preserves_ret.
  - simpl. apply preserves_bind; [apply Hb | apply IH].
Qed.

Lemma preserves_for_each {X} (body : X -> M unit) (l : list X) :
  (forall x, preserves R (body x)) -> preserves R (for_each body l).
Proof. intros Hb. apply preserves_for_fold. intros _ x. apply Hb. Qed.

Lemma preserves_log m : preserves R (log m).
Proof. apply R_emit. Qed.

Lemma preserves_path_exists p : preserves R (path_exists p).
Proof. intros st. apply R_refl. Qed.

Lemma preserves_download_file drive dir file : preserves R (download_file drive dir file).
Proof.
  unfold download_file. apply preserves_bind; [apply preserves_path_exists |].
  intros [|].
  - apply preserves_bind; [apply preserves_log | intros _; apply R_update].
  - apply preserves_bind; [| intros _; apply R_update].
    destruct (downloadUrl file).
    + apply preserves_bind; [| intros _; apply preserves_log].
      unfold GetContentFile.
      apply preserves_bind; [apply R_emit | intros _].
      apply preserves_bind; [apply preserves_get | intros content; apply R_write].
    + destruct (exportLinks file) as [links|]; [| apply preserves_log].
      destruct (links !! "application/pdf") as [[|c l]|]; try apply preserves_log.
      apply preserves_bind.
      { unfold request. apply preserves_bind; [apply R_emit | intros _; apply preserves_get]. }
      intros response. apply preserves_bind; [apply preserves_get | intros pdf_path].
      apply preserves_bind; [apply R_write | intros _; apply preserves_log].
Qed.

Lemma preserves_folder_output_path_for folder_name out :
  preserves R (folder_output_path_for folder_name out).
Proof.
  unfold folder_output_path_for. destruct (negb _); [| apply preserves_ret].
  apply preserves_bind; [apply R_mkdir | intros _; apply preserves_ret].
Qed.

Lemma preserves_process_child recurse drive dir file :
  (forall id out, preserves R (recurse id out)) ->
  preserves R (process_child recurse drive dir file).
Proof.
  intros Hr. unfold process_child. apply preserves_try; [| apply preserves_log].
  destruct (is_folder file); [apply Hr | apply preserves_download_file].
Qed.

Lemma preserves_walker drive fuel : forall folder_id out,
  preserves R (download_google_drive_folder fuel folder_id out drive).
Proof.
  induction fuel as [|fuel IH]; intros folder_id out; [by intros st |].
  rewrite walker_unfold.
  destruct (CreateFile_title drive folder_id) as [folder_name|]; [| apply preserves_log].
  apply preserves_bind; [apply preserves_log | intros _].
  apply preserves_bind; [apply preserves_folder_output_path_for | intros dir].
  destruct (ListFile drive folder_id) as [file_list|]; [| apply preserves_log].
  apply preserves_for_each. intros file. apply preserves_process_child. apply IH.
Qed.

Lemma preserves_download_all drive fuel out folder_ids :
  preserves R (download_all fuel drive out folder_ids).
Proof. apply preserves_for_each. intros folder_id. apply preserves_walker. Qed.

End Frame.

(** *** The disk only gains entries *)

Section Kept.
Import PyPath.

Lemma kept_refl disk : kept disk disk.
Proof. intros key v H. by exists v. Qed.

Lemma kept_trans disk1 disk2 disk3 : kept disk1 disk2 -> kept disk2 disk3 -> kept disk1 disk3.
Proof.
  intros H12 H23 key v Hv.
  destruct (H12 key v Hv) as (v2 & Hv2 & Hk2).
  destruct (H23 key v2 Hv2) as (v3 & Hv3 & Hk3).
  exists v3. split; [done | congruence].
Qed.

Lemma lineage_parts p q : In q (LocalFS.lineage p) -> parts q <> [].
Proof.
  unfold LocalFS.lineage. intros (k & <- & Hk)%in_map_iff.
  apply in_seq in Hk. simpl. destruct (parts p); simpl in *; [lia | done].
Qed.

Lemma kept_made (ks : list Path) : forall disk : filesystem,
  (forall q, In q ks -> LocalFS.is_file disk q = false /\ parts q <> []) ->
  kept disk (fold_left (fun m q => <[str q := LocalFS.Dir]> m) ks disk).
Proof.
  induction ks as [|a ks IH]; intros disk H; [apply kept_refl |].
  simpl. eapply kept_trans; [| apply IH].
  - intros key v Hv. destruct (decide (str a = key)) as [<-|Hne].
    + exists LocalFS.Dir. rewrite lookup_insert_eq. split; [done |].
      destruct (H a (or_introl eq_refl)) as [Hf Hp].
      unfold LocalFS.is_file in Hf. rewrite Hv in Hf.
      destruct (parts a); [done |]. by destruct v.
    + exists v. by rewrite lookup_insert_ne.
  - intros q Hq. destruct (H q (or_intror Hq)) as [Hf Hp]. split; [| done].
    unfold LocalFS.is_file in *. destruct (parts q); [done |].
    destruct (decide (str a = str q)) as [->|Hne].
    + by rewrite lookup_insert_eq.
    + by rewrite lookup_insert_ne.
Qed.

Lemma kept_mkdir disk p disk' : LocalFS.mkdir disk p = Some disk' -> kept disk disk'.
Proof.
  unfold LocalFS.mkdir. destruct (existsb _ _) eqn:E; [done |]. intros [= <-].
  apply kept_made. intros q Hq. split; [| by eapply lineage_parts].
  destruct (LocalFS.is_file disk q) eqn:Hf; [| done].
  assert (existsb (LocalFS.is_file disk) (LocalFS.lineage p) = true); [| congruence].
  apply existsb_exists. eauto.
Qed.

Lemma kept_write disk p data disk' :
  LocalFS.write_file disk p data = Some disk' -> kept disk disk'.
Proof.
  unfold LocalFS.write_file, LocalFS.can_open_wb.
  destruct (LocalFS.is_dir disk p) eqn:Hd; [done |]. simpl.
  destruct (LocalFS.is_dir disk (parent p)); [| done]. intros [= <-].
  intros key v Hv. destruct (decide (str p = key)) as [<-|Hne].
  - exists (LocalFS.File data). rewrite lookup_insert_eq. split; [done |].
    unfold LocalFS.is_dir in Hd. rewrite Hv in Hd.
    destruct (parts p); [done |]. by destruct v.
  - exists v. by rewrite lookup_insert_ne.
Qed.

End Kept.

(** The two relations the walker respects, on whole states. *)
Lemma kept_prims :
  (forall e, preserves (fun st st' => kept (fs st) (fs st')) (emit e))
  /\ (forall k, preserves (fun st st' => kept (fs st) (fs st')) (update k))
  /\ (forall p, preserves (fun st st' => kept (fs st) (fs st')) (mkdir p))
  /\ (forall p data, preserves (fun st st' => kept (fs st) (fs st')) (open_wb_write p data)).
Proof.
  repeat split.
  - intros e s. apply kept_refl.
  - intros k s. unfold update. destruct (progress_bar s); apply kept_refl.
  - intros p s. unfold mkdir. destruct (LocalFS.mkdir (fs s) p) eqn:E; simpl.
    + by eapply kept_mkdir.
    + apply kept_refl.
  - intros p data s. unfold open_wb_write.
    destruct (LocalFS.write_file (fs s) p data) eqn:E; simpl.
    + by eapply kept_write.
    + apply kept_refl.
Qed.

Lemma grown_refl st : grown st st.
Proof. by exists []. Qed.

Lemma grown_trans st1 st2 st3 : grown st1 st2 -> grown st2 st3 -> grown st1 st3.
Proof.
  intros [evs1 H1] [evs2 H2]. exists (evs2 ++ evs1). by rewrite H2, H1, app_assoc.
Qed.

Lemma grown_prims :
  (forall e, preserves grown (emit e))
  /\ (forall k, preserves grown (update k))
  /\ (forall p, preserves grown (mkdir p))
  /\ (forall p data, preserves grown (open_wb_write p data)).
Proof.
  repeat split.
  - intros e s. by exists [e].
  - intros k s. unfold update. destruct (progress_bar s); by exists [].
  - intros p s. unfold mkdir. destruct (LocalFS.mkdir (fs s) p); by exists [Call_mkdir (PyPath.str p)].
  - intros p data s. unfold open_wb_write.
    destruct (LocalFS.write_file (fs s) p data); by exists [Call_open_wb (PyPath.str p)].
Qed.


Lemma children_grown drive fuel dir (file_list : list RemoteEntry) st :
  ends_in (grown st)
    (for_each (process_child (fun id out => download_google_drive_folder fuel id out drive)
                 drive dir) file_list st).
Proof.
  destruct grown_prims as (He & Hu & Hm & Hw).
  apply (preserves_for_each grown); [apply grown_refl | apply grown_trans |].
  intros file. apply preserves_process_child; try done;
    [apply grown_refl | apply grown_trans |].
  intros id out. apply preserves_walker; try done; [apply grown_refl | apply grown_trans].
Qed.

Lemma roots_kept drive fuel out folder_ids st :
  ends_in (fun st' => kept (fs st) (fs st')) (download_all fuel drive out folder_ids st).
Proof.
  destruct kept_prims as (He & Hu & Hm & Hw).
  apply (preserves_download_all (fun st st' => kept (fs st) (fs st'))); try done;
    [intros s; apply kept_refl | intros s1 s2 s3; apply kept_trans].
Qed.

(** Whatever the remote hierarchy and whatever fails, a walk removes
    nothing from the disk and changes the kind of nothing: every path that
    existed before still exists after, directories as directories and
    files as files.  This holds when the walker returns and when its
    [mkdir] raises. *)
Theorem walker_keeps_disk fuel folder_id output_directory drive st :
  ends_in (fun st' => kept (fs st) (fs st'))
    (download_google_drive_folder fuel folder_id output_directory drive st).
Proof.
  destruct kept_prims as (He & Hu & Hm & Hw).
  apply (preserves_walker (fun st st' => kept (fs st) (fs st'))); try done;
    [intros s; apply kept_refl | intros s1 s2 s3; apply kept_trans].
Qed.

(** ** A failing folder, seen from the loops around it *)

Lemma for_fold_app {A X} (body : A -> X -> M A) (l1 l2 : list X) : forall acc st,
  for_fold body (l1 ++ l2) acc st
  = match for_fold body l1 acc st with
    | Ok acc' st' => for_fold body l2 acc' st'
    | Raised st' => Raised st'
    | OutOfFuel => OutOfFuel
    end.
Proof.
  induction l1 as [|x l1 IH]; intros acc st; [done |].
  cbn [app]. rewrite !for_fold_cons.
  destruct (body acc x st) as [acc1 st1|st1|]; [apply IH | done | done].
Qed.

Lemma for_each_app {X} (body : X -> M unit) (l1 l2 : list X) st :
  for_each body (l1 ++ l2) st
  = match for_each body l1 st with
    | Ok _ st' => for_each body l2 st'
    | Raised st' => Raised st'
    | OutOfFuel => OutOfFuel
    end.
Proof.
  unfold for_each. rewrite for_fold_app.
  by destruct (for_fold _ l1 () st) as [[] st1|st1|].
Qed.

Lemma ends_in_impl {A} (P Q : state -> Prop) (r : res A) :
  (forall st, P st -> Q st) -> ends_in P r -> ends_in Q r.
Proof. intros H. destruct r; simpl; eauto. Qed.

Section Siblings.
Variable drive : GoogleDrive.

(** The first thing a walk does is to leave its line. *)
Lemma walker_first_line fuel folder_id out st :
  ends_in
    (fun st' =>
       exists evs m,
         trace st' = evs ++ trace st
         /\ In (Log m) evs
         /\ (m = MetadataFailed folder_id
             \/ exists folder_name,
                  CreateFile_title drive folder_id = Some folder_name
                  /\ m = ProcessingFolder folder_name))
    (download_google_drive_folder (S fuel) folder_id out drive st).
Proof.
  rewrite walker_unfold.
  destruct (CreateFile_title drive folder_id) as [folder_name|] eqn:Ht.
  - unfold mbind at 1, M_bind at 1. cbn [log emit].
    set (st0 := {| fs := fs st; progress_bar := progress_bar st;
                   trace := Log (ProcessingFolder folder_name) :: trace st |}).
    destruct grown_prims as (He & Hu & Hm & Hw).
    assert (Hrest : preserves grown
              (folder_output_path ← folder_output_path_for folder_name out;
               match ListFile drive folder_id with
               | Some file_list =>
                   for_each
                     (process_child
                        (fun id out => download_google_drive_folder fuel id out drive)
                        drive folder_output_path) file_list
               | None => log (ListFailed folder_id)
               end)).
    { apply (preserves_bind grown grown_trans).
      - by apply (preserves_folder_output_path_for grown grown_refl grown_trans).
      - intros dir. destruct (ListFile drive folder_id) as [file_list|].
        + intros s. apply children_grown.
        + by apply preserves_log. }
    eapply ends_in_impl; [| apply (Hrest st0)].
    intros st' [evs Hevs]. exists (evs ++ [Log (ProcessingFolder folder_name)]), (ProcessingFolder folder_name).
    split; [by rewrite Hevs, <- app_assoc |].
    split; [apply in_or_app; right; by left | right; by exists folder_name].
  - simpl. exists [Log (MetadataFailed folder_id)], (MetadataFailed folder_id).
    split; [done |]. split; [by left | by left].
Qed.

(** The loop body on any child returns when the child's subtree is
    within the fuel, and leaves the child's line. *)
Lemma child_reached fuel dir file st :
  is_Some (progress_bar st) ->
  negb (is_folder file) || bounded (S fuel) drive (entry_id file) = true ->
  exists st' evs m,
    process_child (fun id out => download_google_drive_folder (S fuel) id out drive)
      drive dir file st = Ok () st'
    /\ trace st' = evs ++ trace st
    /\ In (Log m) evs
    /\ reached drive file m
    /\ is_Some (progress_bar st').
Proof.
  intros [bar Hbar] Hb. unfold reached.
  destruct (is_folder file) eqn:Hf.
  - simpl in Hb.
    destruct (walker_counted drive (S fuel) (entry_id file) dir st bar Hb Hbar)
      as (k & cevs & _ & Hw).
    pose proof (walker_first_line fuel (entry_id file) dir st) as Hl.
    unfold process_child, try_except. rewrite Hf.
    destruct (download_google_drive_folder (S fuel) (entry_id file) dir drive st)
      as [[] st1|st1|]; simpl in Hl; [| | done].
    + destruct Hl as (evs & m & Ht & Hin & Hm).
      destruct Hw as (_ & _ & b1 & _ & _ & Hb1 & _).
      exists st1, evs, m. by rewrite Hb1.
    + destruct Hl as (evs & m & Ht & Hin & Hm).
      destruct Hw as (_ & _ & b1 & _ & _ & Hb1 & _).
      exists (record (Log (ProcessFailed (title file))) st1),
             (Log (ProcessFailed (title file)) :: evs), m.
      split; [done |]. cbn. rewrite Ht, Hb1. repeat split; eauto.
  - destruct (process_child_file
                (fun id out => download_google_drive_folder (S fuel) id out drive)
                drive dir file st bar Hf Hbar) as (st1 & m & evs & Hp & Ht & _ & Hcase).
    exists st1, (Log m :: evs), m. split; [done |]. split; [done |].
    split; [by left |].
    destruct Hcase as [[Hm Hb1] | [Hm Hb1]]; rewrite Hb1; split; eauto.
Qed.

Lemma children_reached fuel dir (file_list : list RemoteEntry) : forall st,
  is_Some (progress_bar st) ->
  forallb (fun file => negb (is_folder file) || bounded (S fuel) drive (entry_id file))
          file_list = true ->
  exists st',
    for_each
      (process_child (fun id out => download_google_drive_folder (S fuel) id out drive)
         drive dir) file_list st = Ok () st'
    /\ reached_in_turn drive file_list (trace st) (trace st').
Proof.
  induction file_list as [|file rest IH]; intros st Hbar Hb.
  - by exists st.
  - simpl in Hb. apply andb_true_iff in Hb as [Hfile Hrest].
    destruct (child_reached fuel dir file st Hbar Hfile)
      as (st1 & evs & m & Hp & Ht & Hin & Hm & Hbar1).
    destruct (IH st1 Hbar1 Hrest) as (st' & Hl & Hr).
    exists st'. rewrite for_each_cons, Hp. split; [done |].
    exists evs, m. rewrite <- Ht. by repeat split.
Qed.

(** The counter's loop on any children within the fuel. *)
Lemma children_count fuel (file_list : list RemoteEntry) :
  forallb (fun file => negb (is_folder file) || bounded (S fuel) drive (entry_id file))
          file_list = true ->
  exists k cevs,
    forall s acc,
      for_fold (count_child (fun id => count_files (S fuel) id drive)) file_list acc s
      = Ok (acc + k) (recorded cevs s).
Proof.
  intros Hb.
  destruct (children_counted drive (S fuel) (PyPath.Path_of ".") file_list
              (walker_counted drive (S fuel)) Hb (running ∅ 0 0) {| total := 0; n := 0 |}
              eq_refl) as (k & cevs & _ & Hc & _).
  by exists k, cevs.
Qed.

End Siblings.

Lemma counter_unfold drive fuel folder_id :
  count_files (S fuel) folder_id drive
  = match ListFile drive folder_id with
    | None => _ ← log (ListFailed folder_id); mret 0
    | Some file_list =>
        for_fold (count_child (fun id => count_files fuel id drive)) file_list 0
    end.
Proof. reflexivity. Qed.

Lemma failed_walk_returns drive fuel folder_id output_directory st :
  CreateFile_title drive folder_id = None
  \/ (exists folder_name dir st1,
        CreateFile_title drive folder_id = Some folder_name
        /\ folder_output_path_for folder_name output_directory
             (record (Log (ProcessingFolder folder_name)) st) = Ok dir st1
        /\ ListFile drive folder_id = None) ->
  exists st',
    download_google_drive_folder (S fuel) folder_id output_directory drive st = Ok () st'
    /\ progress_bar st' = progress_bar st.
Proof.
  intros [Hm | (folder_name & dir & st1 & Hm & Hd & Hl)].
  - eexists. split; [by apply walker_metadata_failure | done].
  - eexists. split; [by eapply walker_listing_failure |].
    cbn. by destruct (folder_output_path_for_Ok _ _ _ _ _ Hd) as [-> _].
Qed.

(** C8: a folder whose metadata or listing cannot be fetched ends the work
    on that folder only.
    - The walker logs the error and returns: at once when the metadata
      fails, after the directory step when the listing fails; none of the
      folder's children is looked at.
    - The counter logs the error and returns 0.
    - Since these calls return, the loops around them go on: over the
      remaining children of the parent folder, over the remaining root
      folders, and over the remaining roots of the count.
    - The walk of the parent folder: when its loop reaches the failing
      folder [sub] after the children [earlier], the whole walk of the
      parent is what the loop does on the children [later] from the state
      the failure left; with a bar and with fuel for these children it
      returns, and every one of them has left its line in the log, in
      order.
    - The count of the parent folder: it is the count the loop makes on
      the children [later], started from the count of [earlier]; with
      fuel for the other children it returns, logs the failure, and is
      the number the loop finds for [earlier ++ later], so the failing
      folder adds 0 and every other child is counted.
    - The whole run: when the failing folder is the first root, the run
      is the download loop over the other roots from the state the
      failure left, and the total of the bar is the count of the other
      roots. *)
Theorem C8_subtree_failure_is_local fuel drive folder_id output_directory st :
  let walk := download_google_drive_folder (S fuel) folder_id output_directory drive in
  let child :=
    process_child (fun id out => download_google_drive_folder (S fuel) id out drive)
      drive output_directory in
  let counted := count_child (fun id => count_files (S fuel) id drive) in
  let within_fuel :=
    fun file => negb (is_folder file) || bounded (S fuel) drive (entry_id file) in
  let failed :=
    CreateFile_title drive folder_id = None
    \/ exists folder_name dir st1,
         CreateFile_title drive folder_id = Some folder_name
         /\ folder_output_path_for folder_name output_directory
              (record (Log (ProcessingFolder folder_name)) st) = Ok dir st1
         /\ ListFile drive folder_id = None in
  (CreateFile_title drive folder_id = None ->
   walk st = Ok () (record (Log (MetadataFailed folder_id)) st))
  /\ (forall folder_name dir st1,
        CreateFile_title drive folder_id = Some folder_name ->
        folder_output_path_for folder_name output_directory
          (record (Log (ProcessingFolder folder_name)) st) = Ok dir st1 ->
        ListFile drive folder_id = None ->
        walk st = Ok () (record (Log (ListFailed folder_id)) st1))
  /\ (ListFile drive folder_id = None ->
      count_files (S fuel) folder_id drive st
      = Ok 0 (record (Log (ListFailed folder_id)) st))
  /\ (failed ->
      exists st',
        walk st = Ok () st'
        /\ progress_bar st' = progress_bar st
        /\ (forall file rest,
              is_folder file = true ->
              entry_id file = folder_id ->
              for_each child (file :: rest) st = for_each child rest st')
        /\ (forall output_directory_path rest,
              PyPath.Path_of output_directory_path = output_directory ->
              download_all (S fuel) drive output_directory_path (folder_id :: rest) st
              = download_all (S fuel) drive output_directory_path rest st'))
  /\ (ListFile drive folder_id = None ->
      forall rest,
        count_all (S fuel) drive (folder_id :: rest) st
        = count_all (S fuel) drive rest (record (Log (ListFailed folder_id)) st))
  /\ (failed ->
      forall parent parent_directory parent_name earlier sub later s s0,
        CreateFile_title drive parent = Some parent_name ->
        ListFile drive parent = Some (earlier ++ sub :: later) ->
        is_folder sub = true ->
        entry_id sub = folder_id ->
        folder_output_path_for parent_name parent_directory
          (record (Log (ProcessingFolder parent_name)) s) = Ok output_directory s0 ->
        for_each child earlier s0 = Ok () st ->
        exists st',
          walk st = Ok () st'
          /\ download_google_drive_folder (S (S fuel)) parent parent_directory drive s
             = for_each child later st'
          /\ (is_Some (progress_bar st) ->
              forallb within_fuel later = true ->
              exists st_end,
                download_google_drive_folder (S (S fuel)) parent parent_directory drive s
                = Ok () st_end
                /\ reached_in_turn drive later (trace st') (trace st_end)))
  /\ (ListFile drive folder_id = None ->
      forall parent earlier sub later s,
        ListFile drive parent = Some (earlier ++ sub :: later) ->
        is_folder sub = true ->
        entry_id sub = folder_id ->
        (forall a s1,
           for_fold counted earlier 0 s = Ok a s1 ->
           count_files (S (S fuel)) parent drive s
           = for_fold counted later a (record (Log (ListFailed folder_id)) s1))
        /\ (forallb within_fuel (earlier ++ later) = true ->
            exists k evs evs',
              count_files (S (S fuel)) parent drive s = Ok k (recorded evs s)
              /\ In (Log (ListFailed folder_id)) evs
              /\ for_fold counted (earlier ++ later) 0 s = Ok k (recorded evs' s)))
  /\ (failed ->
      forall links_file_path output_directory_path s s1 rest t s2,
        PyPath.Path_of output_directory_path = output_directory ->
        extract_folder_ids links_file_path (record (Log AuthenticationSuccessful) s)
        = Ok (folder_id :: rest) s1 ->
        count_all (S fuel) drive (folder_id :: rest) (record (Log CountingAllFiles) s1)
        = Ok t s2 ->
        st = bar_set t (record (Log (TotalFiles t)) s2) ->
        exists st',
          walk st = Ok () st'
          /\ google_drive_bulk_download (S fuel) (Some drive) links_file_path
               output_directory_path s
             = download_all (S fuel) drive output_directory_path rest st'
          /\ (ListFile drive folder_id = None ->
              count_all (S fuel) drive rest
                (record (Log (ListFailed folder_id)) (record (Log CountingAllFiles) s1))
              = Ok t s2)).
Proof.
  intros walk child counted within_fuel failed.
  assert (Hcount_roots : ListFile drive folder_id = None ->
            forall rest s,
              count_all (S fuel) drive (folder_id :: rest) s
              = count_all (S fuel) drive rest (record (Log (ListFailed folder_id)) s)).
  { intros Hl rest s. unfold count_all. simpl. unfold mbind at 1, M_bind at 1.
    unfold mbind at 1, M_bind at 1. simpl. rewrite Hl. simpl. reflexivity. }
  split; [by apply walker_metadata_failure |].
  split; [intros; by eapply walker_listing_failure |].
  split; [by apply count_listing_failure |].
  split; [| split; [| split; [| split]]].
  - (* the loops around the failing call *)
    intros Hfail.
    destruct (failed_walk_returns drive fuel folder_id output_directory st Hfail)
      as (st' & Hw & Hb).
    exists st'. split; [done |]. split; [done |]. split.
    + intros file rest Hf <-. subst child. rewrite for_each_cons.
      by rewrite (process_child_folder_Ok drive _ output_directory file st st' Hf Hw).
    + intros output_directory_path rest <-. unfold download_all.
      by rewrite for_each_cons, Hw.
  - intros Hl rest. by apply Hcount_roots.
  - (* the walk of the parent *)
    intros Hfail parent parent_directory parent_name earlier sub later s s0
           Ht Hlist Hf Hid Hd Hearlier.
    destruct (failed_walk_returns drive fuel folder_id output_directory st Hfail)
      as (st' & Hw & Hb).
    exists st'. split; [done |].
    assert (Heq : download_google_drive_folder (S (S fuel)) parent parent_directory drive s
                  = for_each child later st').
    { rewrite walker_unfold, Ht, Hlist.
      unfold mbind at 1, M_bind at 1. cbn [log emit].
      unfold record in Hd. cbn in Hd. unfold mbind at 1, M_bind at 1. rewrite Hd.
      fold child. rewrite for_each_app, Hearlier, for_each_cons.
      subst child. rewrite <- Hid in Hw.
      by rewrite (process_child_folder_Ok drive _ output_directory sub st st' Hf Hw). }
    split; [done |].
    intros Hbar Hfuel. rewrite Heq.
    assert (Hbar' : is_Some (progress_bar st')) by (by rewrite Hb).
    apply (children_reached drive fuel output_directory later st' Hbar' Hfuel).
  - (* the count of the parent *)
    intros Hl parent earlier sub later s Hlist Hf Hid.
    assert (Hsub : forall a s1,
              counted a sub s1 = Ok a (record (Log (ListFailed folder_id)) s1)).
    { intros a s1. subst counted. unfold count_child. rewrite Hf, Hid.
      unfold mbind, M_bind. rewrite (count_listing_failure drive fuel folder_id s1 Hl).
      unfold mret, M_ret. by rewrite Nat.add_0_r. }
    split.
    + intros a s1 Hearlier. rewrite counter_unfold, Hlist. fold counted.
      by rewrite for_fold_app, Hearlier, for_fold_cons, Hsub.
    + intros Hfuel. rewrite forallb_app in Hfuel. apply andb_true_iff in Hfuel as [He Hla].
      destruct (children_count drive fuel earlier He) as (k1 & evs1 & Hc1).
      destruct (children_count drive fuel later Hla) as (k2 & evs2 & Hc2).
      fold counted in Hc1, Hc2.
      exists (0 + k1 + k2), (evs2 ++ Log (ListFailed folder_id) :: evs1), (evs2 ++ evs1).
      split; [| split].
      * rewrite counter_unfold, Hlist. fold counted.
        rewrite for_fold_app, Hc1, for_fold_cons, Hsub, Hc2.
        f_equal. unfold recorded, record. cbn. by rewrite <- app_assoc.
      * apply in_or_app. right. by left.
      * by rewrite for_fold_app, Hc1, Hc2, recorded_app.
  - (* the whole run *)
    intros Hfail links_file_path output_directory_path s s1 rest t s2 Hout Hx Hc Hst.
    destruct (failed_walk_returns drive fuel folder_id output_directory st Hfail)
      as (st' & Hw & Hb).
    exists st'. split; [done |]. split.
    + unfold google_drive_bulk_download.
      unfold mbind at 1, M_bind at 1.
      change (authenticate_drive (Some drive) s)
        with (Ok drive (record (Log AuthenticationSuccessful) s)).
      unfold mbind at 1, M_bind at 1. rewrite Hx.
      rewrite (bind_Ok _ _ _ _ _ (log_Ok _ _)).
      rewrite (bind_Ok _ _ _ _ _ Hc).
      rewrite (bind_Ok _ _ _ _ _ (log_Ok _ _)).
      erewrite bind_Ok by reflexivity.
      change {| fs := fs (record (Log (TotalFiles t)) s2);
                progress_bar := Some {| total := t; n := 0 |};
                trace := trace (record (Log (TotalFiles t)) s2) |}
        with (bar_set t (record (Log (TotalFiles t)) s2)).
      rewrite <- Hst. unfold download_all. rewrite for_each_cons.
      subst walk. rewrite <- Hout in Hw. by rewrite Hw.
    + intros Hl. by rewrite <- (Hcount_roots Hl).
Qed.

Lemma C8_witness :
  download_all 3 (failing ["A"] [] sample_drive) "out" ["A"; "R"] (running ∅ 4 0)
  = download_all 3 (failing ["A"] [] sample_drive) "out" ["R"]
      (record (Log (MetadataFailed "A")) (running ∅ 4 0))
  /\ count_files 3 "B" (failing [] ["B"] sample_drive) (running ∅ 4 0)
     = Ok 0 (record (Log (ListFailed "B")) (running ∅ 4 0))
  /\ (exists st st' st_end,
        download_google_drive_folder 2 "A" (PyPath.Path_of "out/Root")
          (failing [] ["A"] sample_drive) st = Ok () st'
        /\ download_google_drive_folder 3 "R" (PyPath.Path_of "out")
             (failing [] ["A"] sample_drive) (running ∅ 2 0) = Ok () st_end
        /\ reached_in_turn (failing [] ["A"] sample_drive) [plain_file "f3" "c.txt"]
             (trace st') (trace st_end))
  /\ (exists k evs evs',
        count_files 3 "R" (failing [] ["A"] sample_drive) (running ∅ 2 0)
        = Ok k (recorded evs (running ∅ 2 0))
        /\ In (Log (ListFailed "A")) evs
        /\ for_fold (count_child (fun id => count_files 2 id (failing [] ["A"] sample_drive)))
             ([plain_file "f1" "a.txt"] ++ [plain_file "f3" "c.txt"]) 0 (running ∅ 2 0)
           = Ok k (recorded evs' (running ∅ 2 0))).
Proof.
  split; [| split; [| split]].
  - destruct (C8_subtree_failure_is_local 2 (failing ["A"] [] sample_drive) "A"
                (PyPath.Path_of "out") (running ∅ 4 0))
      as (Hmeta & _ & _ & Hloops & _).
    destruct Hloops as (st' & Hwalk & _ & _ & Hroots); [left; reflexivity |].
    rewrite (Hroots "out" ["R"] eq_refl).
    rewrite Hmeta in Hwalk by reflexivity. by injection Hwalk as <-.
  - destruct (C8_subtree_failure_is_local 2 (failing [] ["B"] sample_drive) "B"
                (PyPath.Path_of "out") (running ∅ 4 0))
      as (_ & _ & Hcount & _).
    apply Hcount. reflexivity.
  - assert (Hgen : forall s0 st dir st1,
      folder_output_path_for "Root" (PyPath.Path_of "out")
        (record (Log (ProcessingFolder "Root")) (running ∅ 2 0))
      = Ok (PyPath.Path_of "out/Root") s0 ->
      for_each
        (process_child
           (fun id out =>
              download_google_drive_folder 2 id out (failing [] ["A"] sample_drive))
           (failing [] ["A"] sample_drive) (PyPath.Path_of "out/Root"))
        [plain_file "f1" "a.txt"] s0 = Ok () st ->
      folder_output_path_for "Album" (PyPath.Path_of "out/Root")
        (record (Log (ProcessingFolder "Album")) st) = Ok dir st1 ->
      is_Some (progress_bar st) ->
      exists st' st_end,
        download_google_drive_folder 2 "A" (PyPath.Path_of "out/Root")
          (failing [] ["A"] sample_drive) st = Ok () st'
        /\ download_google_drive_folder 3 "R" (PyPath.Path_of "out")
             (failing [] ["A"] sample_drive) (running ∅ 2 0) = Ok () st_end
        /\ reached_in_turn (failing [] ["A"] sample_drive) [plain_file "f3" "c.txt"]
             (trace st') (trace st_end)).
    { intros s0 st dir st1 Hdir Hearlier Hsub Hbar.
      destruct (C8_subtree_failure_is_local 1 (failing [] ["A"] sample_drive) "A"
                  (PyPath.Path_of "out/Root") st)
        as (_ & _ & _ & _ & _ & Hparent & _).
      destruct (Hparent
                  (or_intror (ex_intro _ "Album" (ex_intro _ dir (ex_intro _ st1
                     (conj eq_refl (conj Hsub eq_refl))))))
                  "R" (PyPath.Path_of "out") "Root" [plain_file "f1" "a.txt"]
                  (subfolder "A" "Album") [plain_file "f3" "c.txt"] (running ∅ 2 0) s0
                  eq_refl eq_refl eq_refl eq_refl Hdir Hearlier)
        as (st' & Hw & _ & Hgo).
      destruct (Hgo Hbar eq_refl) as (st_end & Hend & Hreached).
      exists st', st_end. split; [exact Hw |]. split; [exact Hend | exact Hreached]. }
    eassert (Hdir : folder_output_path_for "Root" (PyPath.Path_of "out")
                      (record (Log (ProcessingFolder "Root")) (running ∅ 2 0))
                    = Ok (PyPath.Path_of "out/Root") _) by (vm_compute; reflexivity).
    match type of Hdir with
    | _ = Ok _ ?s0 =>
        eassert (Hearlier :
          for_each
            (process_child
               (fun id out =>
                  download_google_drive_folder 2 id out (failing [] ["A"] sample_drive))
               (failing [] ["A"] sample_drive) (PyPath.Path_of "out/Root"))
            [plain_file "f1" "a.txt"] s0 = Ok () _) by (vm_compute; reflexivity)
    end.
    match type of Hearlier with
    | _ = Ok () ?st =>
        eassert (Hsub : folder_output_path_for "Album" (PyPath.Path_of "out/Root")
                          (record (Log (ProcessingFolder "Album")) st)
                        = Ok _ _) by (vm_compute; reflexivity);
        exists st
    end.
    exact (Hgen _ _ _ _ Hdir Hearlier Hsub (mk_is_Some _ _ eq_refl)).
  - destruct (C8_subtree_failure_is_local 1 (failing [] ["A"] sample_drive) "A"
                (PyPath.Path_of "out/Root") (running ∅ 2 0))
      as (_ & _ & _ & _ & _ & _ & Hcount & _).
    destruct (Hcount eq_refl "R" [plain_file "f1" "a.txt"] (subfolder "A" "Album")
                [plain_file "f3" "c.txt"] (running ∅ 2 0) eq_refl eq_refl eq_refl)
      as [_ Hk].
    apply Hk. vm_compute. reflexivity.
Defined.

(** ** Running the walker again *)

Section Rerun.
Import PyPath.
Variable drive : GoogleDrive.








Lemma quiet_step_events evs st :
  is_Some (progress_bar st) -> forallb is_quiet evs = true ->
  quiet_step st (recorded evs st).
Proof. intros Hb Hq. split; [done |]. split; [by exists evs | done]. Qed.




End Rerun.




(** ** Nothing on the disk is overwritten, exports apart *)

Section NeverOverwrites.
Import PyPath.
Variable drive : GoogleDrive.

Lemma disk_extended_refl st : disk_extended st st.
Proof. unfold disk_extended. reflexivity. Qed.

Lemma disk_extended_trans st1 st2 st3 : disk_extended st1 st2 -> disk_extended st2 st3 -> disk_extended st1 st3.
Proof. unfold disk_extended. intros. by etrans. Qed.

Lemma made_sub (ks : list Path) : forall disk : filesystem,
  (forall q, In q ks -> LocalFS.is_file disk q = false /\ parts q <> []) ->
  disk ⊆ fold_left (fun m q => <[str q := LocalFS.Dir]> m) ks disk.
Proof.
  induction ks as [|a ks IH]; intros disk H; [done |].
  simpl. etrans; [| apply IH].
  - destruct (H a (or_introl eq_refl)) as [Hf Hp].
    unfold LocalFS.is_file in Hf.
    destruct (disk !! str a) as [[|c]|] eqn:Hv.
    + by rewrite insert_id.
    + by destruct (parts a).
    + by apply insert_subseteq.
  - intros q Hq. destruct (H q (or_intror Hq)) as [Hf Hp]. split; [| done].
    unfold LocalFS.is_file in *. destruct (parts q); [done |].
    destruct (decide (str a = str q)) as [->|Hne].
    + by rewrite lookup_insert_eq.
    + by rewrite lookup_insert_ne.
Qed.

Lemma mkdir_sub disk p disk' : LocalFS.mkdir disk p = Some disk' -> disk ⊆ disk'.
Proof.
  unfold LocalFS.mkdir. destruct (existsb _ _) eqn:E; [done |]. intros [= <-].
  apply made_sub. intros q Hq. split; [| by eapply lineage_parts].
  destruct (LocalFS.is_file disk q) eqn:Hf; [| done].
  assert (existsb (LocalFS.is_file disk) (LocalFS.lineage p) = true); [| congruence].
  apply existsb_exists. eauto.
Qed.

Lemma write_sub disk p data disk' :
  LocalFS.exists_ disk p = false ->
  LocalFS.write_file disk p data = Some disk' -> disk ⊆ disk'.
Proof.
  intros He Hw. apply write_file_Some in Hw as ->.
  apply insert_subseteq. unfold LocalFS.exists_ in He.
  destruct (parts p); [done |]. by destruct (disk !! str p).
Qed.

Lemma disk_extended_emit e : preserves disk_extended (emit e).
Proof. intros st. simpl. unfold disk_extended. reflexivity. Qed.

Lemma disk_extended_update k : preserves disk_extended (update k).
Proof. intros st. unfold update. destruct (progress_bar st); simpl; unfold disk_extended; reflexivity. Qed.

Lemma disk_extended_mkdir p : preserves disk_extended (mkdir p).
Proof.
  intros st. unfold mkdir. destruct (LocalFS.mkdir (fs st) p) eqn:E; simpl.
  - unfold disk_extended. by eapply mkdir_sub.
  - unfold disk_extended. reflexivity.
Qed.

Lemma disk_extended_download_file dir file :
  is_exported file = false -> preserves disk_extended (download_file drive dir file).
Proof.
  intros Hx st. unfold download_file, mbind, M_bind, path_exists.
  destruct (LocalFS.exists_ (fs st) (truediv dir (title file))) eqn:He.
  - cbn. unfold update. cbn. destruct (progress_bar st); simpl; unfold disk_extended; reflexivity.
  - unfold is_exported in Hx.
    destruct (downloadUrl file) as [url|].
    + unfold GetContentFile, open_wb_write, mbind, M_bind, emit, get. cbn.
      destruct (FetchContent drive (entry_id file)) as [content|]; [| simpl; unfold disk_extended; reflexivity].
      cbn. destruct (LocalFS.write_file (fs st) _ content) as [disk'|] eqn:Hw;
        [| simpl; unfold disk_extended; reflexivity].
      cbn. unfold update. cbn.
      destruct (progress_bar st); simpl; unfold disk_extended; by eapply write_sub.
    + unfold pdf_link in Hx.
      destruct (exportLinks file) as [links|].
      * destruct (links !! "application/pdf") as [[|c l]|]; [| done |];
          cbn; unfold update; cbn; destruct (progress_bar st); simpl; unfold disk_extended; reflexivity.
      * cbn. unfold update. cbn. destruct (progress_bar st); simpl; unfold disk_extended; reflexivity.
Qed.

Lemma disk_extended_children fuel dir (file_list : list RemoteEntry) :
  (forall folder_id out,
     export_free fuel drive folder_id = true ->
     preserves disk_extended (download_google_drive_folder fuel folder_id out drive)) ->
  forallb (fun file =>
             if is_folder file then export_free fuel drive (entry_id file)
             else negb (is_exported file)) file_list = true ->
  preserves disk_extended
    (for_each (process_child (fun id out => download_google_drive_folder fuel id out drive)
                 drive dir) file_list).
Proof.
  intros IH. induction file_list as [|file rest IHl]; intros Hfree st.
  - apply disk_extended_refl.
  - simpl in Hfree. apply andb_true_iff in Hfree as [Hfile Hrest].
    rewrite for_each_cons.
    assert (Hstep : preserves disk_extended
              (process_child (fun id out => download_google_drive_folder fuel id out drive)
                 drive dir file)).
    { unfold process_child.
      apply (preserves_try disk_extended disk_extended_trans); [| apply disk_extended_emit].
      destruct (is_folder file).
      - by apply IH.
      - apply disk_extended_download_file. by apply negb_true_iff. }
    specialize (Hstep st).
    destruct (process_child _ drive dir file st) as [[] st1|st1|]; simpl in *; [| done | done].
    specialize (IHl Hrest st1).
    destruct (for_each _ rest st1) as [[] st2|st2|]; simpl in *; [| | done];
      by eapply disk_extended_trans.
Qed.

Lemma disk_extended_walker fuel : forall folder_id out,
  export_free fuel drive folder_id = true ->
  preserves disk_extended (download_google_drive_folder fuel folder_id out drive).
Proof.
  induction fuel as [|fuel IH]; intros folder_id out Hfree; [by intros st |].
  rewrite walker_unfold. simpl in Hfree.
  destruct (CreateFile_title drive folder_id) as [folder_name|]; [| apply disk_extended_emit].
  apply (preserves_bind disk_extended disk_extended_trans); [apply disk_extended_emit | intros _].
  apply (preserves_bind disk_extended disk_extended_trans);
    [apply (preserves_folder_output_path_for disk_extended disk_extended_refl disk_extended_trans disk_extended_mkdir) |
     intros dir].
  destruct (ListFile drive folder_id) as [file_list|]; [| apply disk_extended_emit].
  by apply disk_extended_children.
Qed.

End NeverOverwrites.

(** Exports apart, the walker overwrites nothing: if no file entry under
    the folder is one that it exports as PDF, then whatever was on the
    disk before the walk is on the disk after it with the same content,
    whether the walk returns or raises.  The disk only gains entries. *)
Theorem walker_never_overwrites fuel folder_id output_directory drive st :
  export_free fuel drive folder_id = true ->
  ends_in (fun st' => fs st ⊆ fs st')
    (download_google_drive_folder fuel folder_id output_directory drive st).
Proof. intros Hfree. by apply (disk_extended_walker drive fuel folder_id output_directory). Qed.

Lemma walker_never_overwrites_witness :
  export_free 2 plain_drive "R" = true
  /\ ends_in (fun st' => fs (running {[ "out/Root/a.txt" := LocalFS.File "old" ]} 3 0) ⊆ fs st')
       (download_google_drive_folder 2 "R" (PyPath.Path_of "out") plain_drive
          (running {[ "out/Root/a.txt" := LocalFS.File "old" ]} 3 0)).
Proof.
  split; [vm_compute; reflexivity |].
  apply (walker_never_overwrites 2 "R" (PyPath.Path_of "out") plain_drive).
  vm_compute; reflexivity.
Defined.

(** ** The bar never passes its total *)

(** The counting pass and the walk are separate requests to the service.
    [counted] holds the answers the counting pass got and [walked] those
    the walk got; only their listings are assumed to agree. *)
Section Within.
Variables counted walked : GoogleDrive.
Hypothesis same_listings : forall folder_id, ListFile walked folder_id = ListFile counted folder_id.

Lemma within_same st st' bar :
  progress_bar st = Some bar -> progress_bar st' = progress_bar st -> within 0 st st'.
Proof.
  intros Hb Hs. exists bar, bar. rewrite Hs. repeat split; try done; lia.
Qed.

Lemma within_trans k1 k2 st1 st2 st3 :
  within k1 st1 st2 -> within k2 st2 st3 -> within (k1 + k2) st1 st3.
Proof.
  intros (b1 & b2 & Hb1 & Hb2 & Ht1 & Hl1 & Hu1) (b2' & b3 & Hb2' & Hb3 & Ht2 & Hl2 & Hu2).
  assert (b2' = b2) as -> by congruence.
  exists b1, b3. repeat split; try done; [congruence | lia | lia].
Qed.

Lemma within_mono k k' st st' : k <= k' -> within k st st' -> within k' st st'.
Proof.
  intros Hk (b & b' & Hb & Hb' & Ht & Hl & Hu).
  exists b, b'. repeat split; try done. lia.
Qed.

Lemma within_bar k st st' : within k st st' -> is_Some (progress_bar st').
Proof. intros (b & b' & _ & Hb' & _). by rewrite Hb'. Qed.

(** What the counter's loop body returns, read backwards. *)
Lemma count_child_Ok recurse acc file s k s' :
  count_child recurse acc file s = Ok k s' ->
  if is_folder file
  then exists c, recurse (entry_id file) s = Ok c s' /\ k = acc + c
  else k = acc + 1.
Proof.
  unfold count_child. destruct (is_folder file).
  - unfold mbind, M_bind. destruct (recurse (entry_id file) s) as [c s1| |]; [| done | done].
    intros [= <- <-]. by exists c.
  - by intros [= <- _].
Qed.

(** The loop body of the walker moves the bar by at most what the loop
    body of the counter adds for the same child. *)
Lemma child_within fuel dir file acc s k s' st bar :
  (forall folder_id out st bar k s s',
     count_files fuel folder_id counted s = Ok k s' ->
     progress_bar st = Some bar ->
     ends_in (within k st) (download_google_drive_folder fuel folder_id out walked st)) ->
  count_child (fun id => count_files fuel id counted) acc file s = Ok k s' ->
  progress_bar st = Some bar ->
  acc <= k
  /\ ends_in (within (k - acc) st)
       (process_child (fun id out => download_google_drive_folder fuel id out walked)
          walked dir file st).
Proof.
  intros IH Hc Hbar. apply count_child_Ok in Hc.
  destruct (is_folder file) eqn:Hf.
  - destruct Hc as (c & Hc & ->). split; [lia |].
    replace (acc + c - acc) with c by lia.
    specialize (IH (entry_id file) dir st bar c s s' Hc Hbar).
    unfold process_child, try_except. rewrite Hf.
    destruct (download_google_drive_folder fuel (entry_id file) dir walked st)
      as [[] st1|st1|]; simpl in *; [done | | done].
    destruct IH as (b & b' & Hb & Hb' & H). by exists b, b'.
  - subst k. split; [lia |]. replace (acc + 1 - acc) with 1 by lia.
    destruct (process_child_file
                (fun id out => download_google_drive_folder fuel id out walked)
                walked dir file st bar Hf Hbar) as (st1 & m & evs & -> & _ & _ & Hcase).
    simpl. exists bar. destruct Hcase as [[_ Hb] | [_ Hb]].
    + exists (advanced 1 bar). repeat split; try done; simpl; lia.
    + exists bar. repeat split; try done; lia.
Qed.

Lemma children_within fuel dir (file_list : list RemoteEntry) :
  (forall folder_id out st bar k s s',
     count_files fuel folder_id counted s = Ok k s' ->
     progress_bar st = Some bar ->
     ends_in (within k st) (download_google_drive_folder fuel folder_id out walked st)) ->
  forall acc s k s',
    for_fold (count_child (fun id => count_files fuel id counted)) file_list acc s = Ok k s' ->
    forall st bar,
      progress_bar st = Some bar ->
      acc <= k
      /\ ends_in (within (k - acc) st)
           (for_each
              (process_child (fun id out => download_google_drive_folder fuel id out walked)
                 walked dir) file_list st).
Proof.
  intros IH. induction file_list as [|file rest IHl]; intros acc s k s' Hc st bar Hbar.
  - injection Hc as <- _. split; [lia |]. simpl.
    replace (acc - acc) with 0 by lia. by eapply within_same.
  - rewrite for_fold_cons in Hc.
    destruct (count_child _ acc file s) as [acc1 s1| |] eqn:Hc1; [| done | done].
    destruct (child_within fuel dir file acc s acc1 s1 st bar IH Hc1 Hbar) as [Hle1 Hw1].
    rewrite for_each_cons.
    destruct (process_child _ walked dir file st) as [[] st1|st1|]; simpl in *.
    + destruct (within_bar _ _ _ Hw1) as [bar1 Hbar1].
      destruct (IHl acc1 s1 k s' Hc st1 bar1 Hbar1) as [Hle2 Hw2].
      split; [lia |].
      destruct (for_each _ rest st1) as [[] st2|st2|]; simpl in *; [| | done];
        (replace (k - acc) with ((acc1 - acc) + (k - acc1)) by lia);
        by eapply within_trans.
    + destruct (IHl acc1 s1 k s' Hc st bar Hbar) as [Hle2 _].
      split; [lia |]. eapply within_mono; [| exact Hw1]. lia.
    + destruct (IHl acc1 s1 k s' Hc st bar Hbar) as [Hle2 _]. split; [lia | done].
Qed.

Lemma walker_within fuel : forall folder_id out st bar k s s',
  count_files fuel folder_id counted s = Ok k s' ->
  progress_bar st = Some bar ->
  ends_in (within k st) (download_google_drive_folder fuel folder_id out walked st).
Proof.
  induction fuel as [|fuel IH]; intros folder_id out st bar k s s' Hc Hbar; [done |].
  rewrite walker_unfold, same_listings. simpl in Hc.
  assert (H0 : forall st', progress_bar st' = progress_bar st -> within k st st').
  { intros st' Hs. eapply within_mono; [| by eapply within_same]. lia. }
  destruct (CreateFile_title walked folder_id) as [folder_name|]; [| by apply H0].
  unfold mbind, M_bind. cbn [log emit].
  set (st0 := {| fs := fs st; progress_bar := progress_bar st;
                 trace := Log (ProcessingFolder folder_name) :: trace st |}).
  destruct (folder_output_path_for folder_name out st0) as [dir st1|st1|] eqn:Hd;
    [| | done].
  - destruct (folder_output_path_for_Ok _ _ _ _ _ Hd) as [Hb1 _].
    destruct (ListFile counted folder_id) as [file_list|]; [| by apply H0].
    assert (Hbar1 : progress_bar st1 = Some bar) by (by rewrite Hb1).
    destruct (children_within fuel dir file_list IH 0 s k s' Hc st1 bar Hbar1) as [_ Hw].
    rewrite Nat.sub_0_r in Hw.
    assert (H1 : within 0 st st1) by (by eapply within_same).
    destruct (for_each _ file_list st1) as [[] st2|st2|]; simpl in *; [| | done];
      by apply (within_trans 0 k st st1).
  - destruct (folder_output_path_for_Raised _ _ _ _ Hd) as [Hb1 _]. simpl. by apply H0.
Qed.

(** The two loops over the root folders. *)
Lemma roots_within fuel output_directory_path (folder_ids : list string) :
  forall acc s k s',
    for_fold (fun acc folder_id => c ← count_files fuel folder_id counted; mret (acc + c))
             folder_ids acc s = Ok k s' ->
    forall st bar,
      progress_bar st = Some bar ->
      acc <= k
      /\ ends_in (within (k - acc) st)
           (download_all fuel walked output_directory_path folder_ids st).
Proof.
  induction folder_ids as [|folder_id rest IH]; intros acc s k s' Hc st bar Hbar.
  - injection Hc as <- _. split; [lia |]. simpl.
    replace (acc - acc) with 0 by lia. by eapply within_same.
  - rewrite for_fold_cons in Hc. unfold mbind at 1, M_bind at 1 in Hc.
    destruct (count_files fuel folder_id counted s) as [c s1| |] eqn:Hc1; [| done | done].
    unfold mret at 1, M_ret at 1 in Hc.
    pose proof (walker_within fuel folder_id (PyPath.Path_of output_directory_path)
                  st bar c s s1 Hc1 Hbar) as Hw1.
    unfold download_all. rewrite for_each_cons.
    fold (download_all fuel walked output_directory_path rest).
    destruct (download_google_drive_folder fuel folder_id _ walked st)
      as [[] st1|st1|]; simpl in *.
    + destruct (within_bar _ _ _ Hw1) as [bar1 Hbar1].
      destruct (IH (acc + c) s1 k s' Hc st1 bar1 Hbar1) as [Hle2 Hw2].
      split; [lia |].
      destruct (download_all fuel walked output_directory_path rest st1)
        as [[] st2|st2|]; simpl in *; [| | done];
        (replace (k - acc) with (c + (k - (acc + c))) by lia);
        by eapply within_trans.
    + destruct (IH (acc + c) s1 k s' Hc st bar Hbar) as [Hle2 _].
      split; [lia |]. eapply within_mono; [| exact Hw1]. lia.
    + destruct (IH (acc + c) s1 k s' Hc st bar Hbar) as [Hle2 _]. split; [lia | done].
Qed.

End Within.

(** The walker moves the bar by at most the number the counter returned
    for the same folder, and leaves its total alone, provided the
    listings the walk is given are those the counting pass was given.
    Everything else may fail or differ between the two: metadata
    requests, fetches, exports, the creation of directories, writes.  A
    failure can only make the walker fall short of the count.  This holds
    for a walk that returns and for one that raises. *)
Theorem walker_advances_at_most_count fuel folder_id output_directory counted walked
    st bar k s s' :
  (forall id, ListFile walked id = ListFile counted id) ->
  count_files fuel folder_id counted s = Ok k s' ->
  progress_bar st = Some bar ->
  ends_in (within k st)
    (download_google_drive_folder fuel folder_id output_directory walked st).
Proof. intros Hsame Hc Hbar. by eapply walker_within. Qed.

Lemma walker_advances_at_most_count_witness :
  (forall id, ListFile (offline clash_drive) id = ListFile clash_drive id)
  /\ count_files 2 "R" clash_drive (running ∅ 2 0) = Ok 2 (running ∅ 2 0)
  /\ ends_in (within 2 (running ∅ 2 0))
       (download_google_drive_folder 2 "R" (PyPath.Path_of "out") (offline clash_drive)
          (running ∅ 2 0)).
Proof.
  assert (Hc : count_files 2 "R" clash_drive (running ∅ 2 0) = Ok 2 (running ∅ 2 0))
    by (vm_compute; reflexivity).
  split; [done |]. split; [exact Hc |].
  exact (walker_advances_at_most_count 2 "R" (PyPath.Path_of "out") clash_drive
           (offline clash_drive) (running ∅ 2 0) {| total := 2; n := 0 |} 2
           (running ∅ 2 0) (running ∅ 2 0) (fun id => eq_refl) Hc eq_refl).
Defined.

(** Without that proviso the bound fails: here the listing of the root
    fails while counting and answers during the walk, the count is 0 and
    the walk moves the bar to 4. *)
Example listing_failed_only_while_counting :
  count_files 3 "R" (failing [] ["R"] sample_drive) (running ∅ 0 0)
  = Ok 0 (record (Log (ListFailed "R")) (running ∅ 0 0))
  /\ exists st',
       download_google_drive_folder 3 "R" (PyPath.Path_of "out") sample_drive
         (running ∅ 0 0) = Ok () st'
       /\ progress_bar st' = Some {| total := 0; n := 4 |}.
Proof.
  split; [reflexivity |].
  eexists. split; [vm_compute; reflexivity | reflexivity].
Qed.

(** The passes that only read: the links file and the counter.  They
    keep whatever logging keeps. *)
Section ReadOnly.
Variable R : state -> state -> Prop.
Hypothesis R_refl : forall st, R st st.
Hypothesis R_trans : forall st1 st2 st3, R st1 st2 -> R st2 st3 -> R st1 st3.
Hypothesis R_emit : forall e, preserves R (emit e).

Lemma preserves_extract_line folder_ids line : preserves R (extract_line folder_ids line).
Proof.
  unfold extract_line. destruct (PyStr.contains marker line); [| by apply preserves_ret].
  destruct (folder_id_of_line line); [by apply preserves_ret |].
  apply (preserves_bind R R_trans); [by apply preserves_log | intros _].
  by apply preserves_ret.
Qed.

Lemma preserves_extract_folder_ids links_file_path :
  preserves R (extract_folder_ids links_file_path).
Proof.
  intros st. unfold extract_folder_ids.
  destruct (LocalFS.open_r (fs st) links_file_path) as [content| |].
  - destruct (PyStr.decode content) as [text|]; [| apply R_refl].
    apply (preserves_for_fold R R_refl R_trans). apply preserves_extract_line.
  - apply (preserves_bind R R_trans); [by apply preserves_log | intros _].
    by apply preserves_ret.
  - apply R_refl.
Qed.

Lemma preserves_count_files drive fuel : forall folder_id,
  preserves R (count_files fuel folder_id drive).
Proof.
  induction fuel as [|fuel IH]; intros folder_id; [by intros st |]. simpl.
  destruct (ListFile drive folder_id) as [file_list|].
  - apply (preserves_for_fold R R_refl R_trans). intros acc file.
    unfold count_child. destruct (is_folder file); [| by apply preserves_ret].
    apply (preserves_bind R R_trans); [apply IH | intros c; by apply preserves_ret].
  - apply (preserves_bind R R_trans); [by apply preserves_log | intros _].
    by apply preserves_ret.
Qed.

Lemma preserves_count_all drive fuel folder_ids :
  preserves R (count_all fuel drive folder_ids).
Proof.
  apply (preserves_for_fold R R_refl R_trans). intros acc folder_id.
  apply (preserves_bind R R_trans); [apply preserves_count_files | intros c].
  by apply preserves_ret.
Qed.

End ReadOnly.

Lemma same_store_refl st : same_store st st.
Proof. done. Qed.

Lemma same_store_trans st1 st2 st3 :
  same_store st1 st2 -> same_store st2 st3 -> same_store st1 st3.
Proof. intros [? ?] [? ?]. split; congruence. Qed.

Lemma same_store_emit e : preserves same_store (emit e).
Proof. by intros st. Qed.

(** Before the bar is made the script's own code writes nothing: the
    reading of the links file and the counting pass leave the disk and
    the bar as they found them, whether they return or raise.  All they
    add is log lines. *)
Theorem reading_passes_keep_store fuel drive links_file_path folder_ids st :
  ends_in (same_store st) (extract_folder_ids links_file_path st)
  /\ ends_in (same_store st) (count_all fuel drive folder_ids st).
Proof.
  split.
  - apply (preserves_extract_folder_ids same_store same_store_refl same_store_trans
             same_store_emit).
  - apply (preserves_count_all same_store same_store_refl same_store_trans
             same_store_emit).
Qed.

(** The bar never passes its total, provided the listings the walk is
    given are those the counting pass was given.  Let the sum of line 167
    over the root folders be [k], and start the download loop of lines
    175-176 with the bar of line 171, whose total is [k] and whose counter
    is 0.  However the loop ends, returning or raising, and whatever else
    fails or differs between the two passes, the counter of the bar is at
    most its total. *)
Theorem bar_never_passes_total fuel counted walked output_directory_path folder_ids
    s k s' st :
  (forall id, ListFile walked id = ListFile counted id) ->
  count_all fuel counted folder_ids s = Ok k s' ->
  progress_bar st = Some {| total := k; n := 0 |} ->
  ends_in bar_in_range (download_all fuel walked output_directory_path folder_ids st).
Proof.
  intros Hsame Hc Hbar.
  destruct (roots_within counted walked Hsame fuel output_directory_path folder_ids
              0 s k s' Hc st {| total := k; n := 0 |} Hbar) as [_ Hw].
  rewrite Nat.sub_0_r in Hw.
  eapply ends_in_impl; [| exact Hw].
  intros st' (b & b' & Hb & Hb' & Ht & _ & Hu).
  rewrite Hbar in Hb. injection Hb as <-.
  unfold bar_in_range. rewrite Hb', Ht. simpl in *. lia.
Qed.

Lemma bar_never_passes_total_witness :
  (forall id, ListFile (offline clash_drive) id = ListFile clash_drive id)
  /\ count_all 3 clash_drive ["R"] (start (sharing_link "R"))
     = Ok 2 (start (sharing_link "R"))
  /\ ends_in bar_in_range
       (download_all 3 (offline clash_drive) "out" ["R"]
          (bar_set 2 (start (sharing_link "R")))).
Proof.
  assert (Hc : count_all 3 clash_drive ["R"] (start (sharing_link "R"))
               = Ok 2 (start (sharing_link "R"))) by (vm_compute; reflexivity).
  split; [done |]. split; [exact Hc |].
  exact (bar_never_passes_total 3 clash_drive (offline clash_drive) "out" ["R"]
           (start (sharing_link "R")) 2 (start (sharing_link "R"))
           (bar_set 2 (start (sharing_link "R"))) (fun id => eq_refl) Hc eq_refl).
Defined.
